(** * CV analysis and candidate ranking (app.py)

    A shallow embedding of the Streamlit script [app.py]: text extraction
    from uploaded documents, scoring of each text with the classifier,
    ranking, the presentation of the results and the session reset.

    Python values are modelled as follows.
    - [str] is a sequence of Unicode code points ([list N]).
    - NumPy floating-point scalars are IEEE 754 binary floats, given by the
      Standard Library's executable specification [SpecFloat]; the format
      (binary32 or binary64, depending on NumPy's promotion rules) is a
      parameter.
    - Exceptions are the [Raise] branch of [result].
    - [st.session_state] is a finite map from keys to Python objects.
    - Calls that draw on the page are recorded, in order, on a [screen]. *)

From Stdlib Require Import ZArith NArith Ascii String.
From Stdlib Require Import Floats.SpecFloat.
From stdpp Require Import gmap strings list.

Open Scope string_scope.
Open Scope Z_scope.
Open Scope list_scope.

(** ** Python strings *)

Abbreviation str := (list N).

(** An ASCII literal of the source as a Python string. *)
Definition lit (s : string) : str :=
  (λ a, N_of_ascii a) <$> list_ascii_of_string s.

(** [str.isspace] on one code point (CPython's [_PyUnicode_IsWhitespace]). *)
Definition isspace (c : N) : bool :=
  ((9 <=? c) && (c <=? 13) || (28 <=? c) && (c <=? 32) ||
   (c =? 133) || (c =? 160) || (c =? 5760) ||
   (8192 <=? c) && (c <=? 8202) || (c =? 8232) || (c =? 8233) ||
   (c =? 8239) || (c =? 8287) || (c =? 12288))%N.

(** [s.lstrip()], [s.rstrip()] and [s.strip()] without arguments. *)
Fixpoint lstrip (s : str) : str :=
  match s with
  | c :: s' => if isspace c then lstrip s' else s
  | [] => []
  end.

Definition rstrip (s : str) : str := reverse (lstrip (reverse s)).

Definition strip (s : str) : str := rstrip (lstrip s).

(** ** Exceptions *)

Inductive exn :=
  | PdfOpenError      (* pdfplumber.open could not parse the document *)
  | DocxError         (* docx2txt.process could not parse the document *)
  | ClassifierError   (* the tokenizer or the model raised *)
  | IndexError        (* subscript out of range *)
  | ValueError.       (* max() of an empty sequence *)

Inductive result (A : Type) :=
  | Ok (a : A)
  | Raise (e : exn).
Arguments Ok {A} a.
Arguments Raise {A} e.

#[global] Instance result_ret : MRet result := λ A a, Ok a.
#[global] Instance result_bind : MBind result := λ A B f m,
  match m with
  | Ok a => f a
  | Raise e => Raise e
  end.

(** A [for] loop over [xs] whose body updates the loop state [s] and may
    raise: the first exception ends the loop. *)
Fixpoint for_each {A S : Type} (body : S → A → result S)
    (xs : list A) (s : S) : result S :=
  match xs with
  | [] => Ok s
  | x :: xs' =>
      match body s x with
      | Ok s' => for_each body xs' s'
      | Raise e => Raise e
      end
  end.

(** [l[i]] for a non-negative index. *)
Definition getitem {A : Type} (l : list A) (i : nat) : result A :=
  match l !! i with
  | Some x => Ok x
  | None => Raise IndexError
  end.

(** ** Floating-point scalars *)

Abbreviation float := spec_float.

(** The libraries the script calls into. Their code is not part of the
    repository; each is an operation with the stated result type. The
    scalars they return are scalars of the format [float_prec],
    [float_emax] (where NumPy widens a binary32 entry to binary64 before
    the arithmetic, the entry is taken as the binary64 scalar of the same
    value), so that [SFcompare] on them is the order of their values. *)
Class Libs := {
  (* the binary format of the NumPy scalars: mantissa bits and the
     exponent of the infinities (24, 128 or 53, 1024) *)
  float_prec : Z;
  float_emax : Z;
  (* uploaded file contents, an opened PDF's pages, tokenizer output *)
  blob : Type;
  page : Type;
  tokens : Type;
  (* pdfplumber.open(f).pages *)
  pdfplumber_open : blob → result (list page);
  (* page.extract_text() *)
  extract_text : page → str;
  (* docx2txt.process(f) *)
  docx2txt_process : blob → result str;
  (* tokenizer(text, return_tensors="pt", truncation=True, padding=True,
     max_length=512) *)
  tokenizer : str → result tokens;
  (* the logits of the model on the inputs, a batch of rows *)
  model_logits : tokens → result (list (list float));
  (* torch.softmax(logits, dim=1).numpy() *)
  torch_softmax : list (list float) → list (list float)
}.

Section App.
Context `{Libs}.

Definition fmul : float → float → float := SFmul float_prec float_emax.
Definition fadd : float → float → float := SFadd float_prec float_emax.

(** The Python literals [100] and [0.5] as scalars of the format. *)
Definition float_100 : float :=
  binary_normalize float_prec float_emax 100 0 false.
Definition float_half : float :=
  binary_normalize float_prec float_emax 1 (-1) false.

(** *** analyze_cv_text *)
Definition analyze_cv_text (cv_text : str) : result (list (list float)) :=
  inputs ← tokenizer cv_text;
  logits ← model_logits inputs;
  let probabilities := torch_softmax logits in
  Ok probabilities.

(** *** rank_candidates *)

(** One entry of [all_candidates]: the tuple
    [(cv, total_score, skills_score, experience_score)]. *)
Record Candidate := mk_candidate {
  cv : str;                  (* x[0] *)
  total_score : float;       (* x[1] *)
  skills_score : float;      (* x[2] *)
  experience_score : float   (* x[3] *)
}.

(** The body of the loop of [rank_candidates]. *)
Definition rank_step (all_candidates : list Candidate) (cv : str)
    : result (list Candidate) :=
  cv_scores ← analyze_cv_text cv;
  row ← getitem cv_scores 0;
  p ← getitem row 0;
  let skills_score := fmul p float_100 in
  row ← getitem cv_scores 0;
  p ← getitem row 1;
  let experience_score := fmul p float_100 in
  let total_score :=
    fadd (fmul float_half skills_score) (fmul float_half experience_score) in
  Ok (all_candidates ++ [mk_candidate cv total_score skills_score experience_score]).

Definition rank_candidates (cv_data : list str) : result (list Candidate) :=
  for_each rank_step cv_data [].

(** *** extract_text_from_pdf, extract_text_from_word *)

Definition newline : str := [10%N].

Definition extract_text_from_pdf (pdf_path : blob) : result str :=
  pages ← pdfplumber_open pdf_path;
  let text :=
    fold_left (λ text page, text ++ (extract_text page ++ newline)) pages [] in
  Ok (strip text).

Definition extract_text_from_word (docx_path : blob) : result str :=
  docx2txt_process docx_path.

(** *** The upload loop (lines 80 to 88) *)

(** An uploaded file: its declared media type and its contents. *)
Record UploadedFile := mk_file {
  file_type : str;
  file_data : blob
}.

Definition mime_pdf : str := lit "application/pdf".
Definition mime_docx : str :=
  lit "application/vnd.openxmlformats-officedocument.wordprocessingml.document".

Definition upload_step (cvs : list str) (uploaded_file : UploadedFile)
    : result (list str) :=
  if bool_decide (file_type uploaded_file = mime_pdf) then
    text ← extract_text_from_pdf (file_data uploaded_file);
    Ok (cvs ++ [text])
  else if bool_decide (file_type uploaded_file = mime_docx) then
    text ← extract_text_from_word (file_data uploaded_file);
    Ok (cvs ++ [text])
  else Ok cvs.

Definition collect_cvs (uploaded_files : list UploadedFile) : result (list str) :=
  for_each upload_step uploaded_files [].

(** *** max(candidates, key=lambda x: x[1]) *)

(** Python's [a > b] on floating-point scalars. *)
Definition float_gt (a b : float) : bool := SFltb b a.

(** The scan of [max]: the item kept so far is replaced only by an item
    whose key is greater. *)
Fixpoint max_scan (maxitem : Candidate) (rest : list Candidate) : Candidate :=
  match rest with
  | [] => maxitem
  | item :: rest' =>
      if float_gt (total_score item) (total_score maxitem)
      then max_scan item rest'
      else max_scan maxitem rest'
  end.

Definition best_candidate (candidates : list Candidate) : result Candidate :=
  match candidates with
  | [] => Raise ValueError
  | item :: rest => Ok (max_scan item rest)
  end.

(** *** The page and the session *)

(** The pieces of an f-string: literal text and formatted values. *)
Inductive part :=
  | Lit (s : string)       (* literal text *)
  | Text (s : str)         (* {s} *)
  | Int (n : nat)          (* {n} *)
  | Fixed2 (x : float).    (* {x:.2f} *)

(** The data handed to the bar chart (lines 111 to 129). *)
Record Chart := mk_chart {
  labels : list (list part);
  skills_scores : list float;
  experience_scores : list float
}.

(** One call that draws on the page. *)
Inductive ui :=
  | PageHeader                       (* lines 55 to 67 *)
  | Spinner (s : string)
  | Subheader (s : string)
  | Markdown (ps : list part)
  | Write (ps : list part)
  | Pyplot (c : Chart)
  | Warning (s : string)
  | Success (s : string)
  | PageFooter.                      (* lines 149 to 152 *)

(** The objects kept in [st.session_state]: [None] or a list. *)
Inductive item :=
  | IFile (f : UploadedFile)
  | ICandidate (c : Candidate).

Inductive value :=
  | VNone
  | VList (l : list item).

(** Truth value of an object, as tested by [if] and [or]. *)
Definition truthy (v : value) : bool :=
  match v with
  | VNone => false
  | VList [] => false
  | VList (_ :: _) => true
  end.

Record world := mk_world {
  session_state : gmap string value;
  screen : list ui
}.

(** A piece of the script: it may change the session, draw on the page
    and raise. What was done before an exception stays done. *)
Definition script (A : Type) : Type := world → result A * world.

Definition script_ret {A} (a : A) : script A := λ w, (Ok a, w).

Definition script_bind {A B} (m : script A) (f : A → script B) : script B :=
  λ w, match m w with
       | (Ok a, w') => f a w'
       | (Raise e, w') => (Raise e, w')
       end.

Definition lift {A} (r : result A) : script A := λ w, (r, w).

Definition st_emit (e : ui) : script unit :=
  λ w, (Ok (), mk_world (session_state w) (screen w ++ [e])).

(** [key in st.session_state] *)
Definition ss_contains (key : string) : script bool :=
  λ w, (Ok (bool_decide (is_Some (session_state w !! key))), w).

(** [del st.session_state[key]], for a key that is present *)
Definition ss_del (key : string) : script unit :=
  λ w, (Ok (), mk_world (delete key (session_state w)) (screen w)).

(** [st.session_state[key] = v] *)
Definition ss_set (key : string) (v : value) : script unit :=
  λ w, (Ok (), mk_world (<[key := v]> (session_state w)) (screen w)).

(** [st.session_state.get(key)] *)
Definition ss_get (key : string) : script value :=
  λ w, (Ok (default VNone (session_state w !! key)), w).

End App.

Declare Scope script_scope.
Delimit Scope script_scope with script.
Notation "x <~ m ;; k" := (script_bind m (λ x, k))
  (at level 100, m at next level, right associativity) : script_scope.
Notation "m ;;; k" := (script_bind m (λ _, k))
  (at level 100, right associativity) : script_scope.
Notation "'when' b 'then' m" := (if b then m else script_ret ())
  (at level 100, b at next level, right associativity) : script_scope.

Section Script.
Context `{Libs}.
Local Open Scope script_scope.

(** A [for] loop whose body is a piece of the script. *)
Fixpoint script_for {A : Type} (body : A → script unit) (xs : list A)
    : script unit :=
  match xs with
  | [] => script_ret ()
  | x :: xs' => body x ;;; script_for body xs'
  end.

(** *** reset_state *)
Definition reset_state : script unit :=
  (b <~ ss_contains "uploaded_files" ;;
   when b then ss_del "uploaded_files") ;;;
  (b <~ ss_contains "candidates" ;;
   when b then ss_del "candidates") ;;;
  ss_set "uploaded_files" VNone ;;;
  ss_set "candidates" (VList []).

(** *** Lines 93 to 138: the results, or the warning *)

(** [enumerate(candidates)] *)
Definition enumerate {A : Type} (l : list A) : list (nat * A) :=
  zip (seq 0 (length l)) l.

Definition show_candidate (entry : nat * Candidate) : script unit :=
  let '(index, candidate) := entry in
  let '(mk_candidate cv total_score skills_score experience_score) := candidate in
  st_emit (Markdown [Lit "**CV Snippet "; Int (index + 1);
                     Lit ":** <span style='color: #d62728;'>";
                     Text (take 30 cv); Lit "...</span>"]) ;;;
  st_emit (Markdown [Lit "**Total Score:** <span style='color: #2ca02c;'>";
                     Fixed2 total_score; Lit "%</span>"]) ;;;
  st_emit (Markdown [Lit "**Skills Score:** <span style='color: #1f77b4;'>";
                     Fixed2 skills_score; Lit "%</span>"]) ;;;
  st_emit (Markdown [Lit "**Experience Score:** <span style='color: #ff7f0e;'>";
                     Fixed2 experience_score; Lit "%</span>"]).

Definition show_results (candidates : list Candidate) : script unit :=
  if bool_decide (candidates ≠ []) then
    st_emit (Subheader "Candidates Analysis") ;;;
    script_for show_candidate (enumerate candidates) ;;;
    st_emit (Subheader "Comparison of Skills and Experience Scores") ;;;
    st_emit (Pyplot {|
      labels := (λ i, [Lit "CV "; Int (i + 1)]) <$> seq 0 (length candidates);
      skills_scores := skills_score <$> candidates;
      experience_scores := experience_score <$> candidates |}) ;;;
    best <~ lift (best_candidate candidates) ;;
    let '(mk_candidate best_cv best_total_score best_skills_score
                       best_experience_score) := best in
    st_emit (Markdown [Lit "### **Best Candidate:** CV Snippet: ";
                       Text (take 30 best_cv); Lit "..."]) ;;;
    st_emit (Write [Lit "**Best Total Score:** "; Fixed2 best_total_score; Lit "%"]) ;;;
    st_emit (Write [Lit "**Best Skills Score:** "; Fixed2 best_skills_score; Lit "%"]) ;;;
    st_emit (Write [Lit "**Best Experience Score:** ";
                    Fixed2 best_experience_score; Lit "%"])
  else
    st_emit (Warning "No candidates found. Please check the CV content.").

(** *** The script, run once *)

(** Lines 78 to 138: what the script does with the uploaded files. *)
Definition upload_block (uploaded_files : list UploadedFile) : script unit :=
  when bool_decide (uploaded_files ≠ []) then
    ss_set "uploaded_files" (VList (IFile <$> uploaded_files)) ;;;
    st_emit (Spinner "Extracting text from the CVs...") ;;;
    cvs <~ lift (collect_cvs uploaded_files) ;;
    candidates <~ lift (rank_candidates cvs) ;;
    show_results candidates.

(** Lines 141 to 146: the button that clears the session. *)
Definition clear_block (clear : bool) : script unit :=
  when clear then
    u <~ ss_get "uploaded_files" ;;
    c <~ ss_get "candidates" ;;
    if truthy u || truthy c then
      reset_state ;;;
      st_emit (Success "CVs cleared successfully!")
    else
      st_emit (Warning "No CVs uploaded to clear.").

(** One run of the page: [uploaded_files] is what the file uploader
    returns and [clear] whether the button was pressed. *)
Definition main (uploaded_files : list UploadedFile) (clear : bool)
    : script unit :=
  st_emit PageHeader ;;;
  (b <~ ss_contains "uploaded_files" ;;
   when negb b then ss_set "uploaded_files" VNone) ;;;
  upload_block uploaded_files ;;;
  clear_block clear ;;;
  st_emit PageFooter.

End Script.

(** ** Definitions used to state the properties *)

Section Statements.
Context `{Libs}.

(** The classifier answers on [text] with a batch whose first row has
    an entry 0 (skills) and an entry 1 (experience). *)
Definition scored (text : str) : Prop :=
  ∃ cv_scores row p0 p1,
    analyze_cv_text text = Ok cv_scores ∧ cv_scores !! 0%nat = Some row ∧
    row !! 0%nat = Some p0 ∧ row !! 1%nat = Some p1.

(** The tuple the loop of [rank_candidates] appends for one text. *)
Definition candidate_for (text : str) : result Candidate :=
  match rank_step [] text with
  | Ok [c] => Ok c
  | Ok _ => Raise IndexError
  | Raise e => Raise e
  end.

(** The media types for which the upload loop has a branch. *)
Definition accepted (f : UploadedFile) : bool :=
  bool_decide (file_type f = mime_pdf) || bool_decide (file_type f = mime_docx).

(** The text of a PDF in the words of the specification: every page's
    text, in page order, each followed by a newline. *)
Definition pages_text (pages : list page) : str :=
  concat ((λ p, extract_text p ++ newline) <$> pages).

(** The position [max] selects among the keys [maxval :: rest], where
    [maxval] is at position [maxpos] and [rest] starts at [pos]. *)
Fixpoint max_scan_index (maxval : float) (maxpos pos : nat) (rest : list float) : nat :=
  match rest with
  | [] => maxpos
  | val :: rest' =>
      if float_gt val maxval
      then max_scan_index val pos (S pos) rest'
      else max_scan_index maxval maxpos (S pos) rest'
  end.

Definition best_index (totals : list float) : option nat :=
  match totals with
  | [] => None
  | val :: rest => Some (max_scan_index val 0 1 rest)
  end.

(** The total score of [c] is at most that of [best]. *)
Definition le_total (best c : Candidate) : Prop :=
  SFleb (total_score c) (total_score best) = true.

(** The session holds no uploaded document and no computed candidate. *)
Definition session_empty (w : world) : Prop :=
  truthy (default VNone (session_state w !! "uploaded_files")) = false ∧
  truthy (default VNone (session_state w !! "candidates")) = false.

(** The extractor the upload loop applies to a file of an accepted type. *)
Definition extract_for (f : UploadedFile) : result str :=
  if bool_decide (file_type f = mime_pdf)
  then extract_text_from_pdf (file_data f)
  else extract_text_from_word (file_data f).

(** Lines 84 to 90 in one piece: the texts of the uploaded files, ranked. *)
Definition analysis (uploaded_files : list UploadedFile) : result (list Candidate) :=
  cvs ← collect_cvs uploaded_files;
  rank_candidates cvs.

(** The texts joined by newlines, Python's ["\n".join(texts)]. *)
Fixpoint join_lines (texts : list str) : str :=
  match texts with
  | [] => []
  | [text] => text
  | text :: texts' => text ++ newline ++ join_lines texts'
  end.

(** The four lines drawn for the candidate at position [index]. *)
Definition candidate_card (index : nat) (c : Candidate) : list ui :=
  [Markdown [Lit "**CV Snippet "; Int (index + 1);
             Lit ":** <span style='color: #d62728;'>";
             Text (take 30 (cv c)); Lit "...</span>"];
   Markdown [Lit "**Total Score:** <span style='color: #2ca02c;'>";
             Fixed2 (total_score c); Lit "%</span>"];
   Markdown [Lit "**Skills Score:** <span style='color: #1f77b4;'>";
             Fixed2 (skills_score c); Lit "%</span>"];
   Markdown [Lit "**Experience Score:** <span style='color: #ff7f0e;'>";
             Fixed2 (experience_score c); Lit "%</span>"]].

(** The four lines drawn for the best candidate. *)
Definition best_card (best : Candidate) : list ui :=
  [Markdown [Lit "### **Best Candidate:** CV Snippet: ";
             Text (take 30 (cv best)); Lit "..."];
   Write [Lit "**Best Total Score:** "; Fixed2 (total_score best); Lit "%"];
   Write [Lit "**Best Skills Score:** "; Fixed2 (skills_score best); Lit "%"];
   Write [Lit "**Best Experience Score:** "; Fixed2 (experience_score best); Lit "%"]].

(** The session after lines 70 and 71: [uploaded_files] is set to [None]
    when the key is missing. *)
Definition init_session (ss : gmap string value) : gmap string value :=
  if bool_decide (is_Some (ss !! "uploaded_files")) then ss
  else <["uploaded_files" := VNone]> ss.

(** The session after [reset_state]. *)
Definition reset_session (ss : gmap string value) : gmap string value :=
  <["candidates" := VList []]> (<["uploaded_files" := VNone]> ss).

(** The session after [st.session_state["uploaded_files"] = uploaded_files]. *)
Definition with_uploads (uploaded_files : list UploadedFile)
    (ss : gmap string value) : gmap string value :=
  <["uploaded_files" := VList (IFile <$> uploaded_files)]> ss.









End Statements.

(** ** Definitions used in the proofs about rounding *)




(** ** Concrete libraries on which the definitions can be run *)

Definition b64 (n : Z) : float := binary_normalize 53 1024 n 0 false.

(** The decimal literals 72.50 and 88.10 as binary64 scalars. *)
Definition float_72_50 : float :=
  Eval vm_compute in SFdiv 53 1024 (b64 725) (b64 10).
Definition float_88_10 : float :=
  Eval vm_compute in SFdiv 53 1024 (b64 881) (b64 10).

(** Stand-ins for the parsers and the classifier: a document is the list
    of its page texts, a document without pages cannot be opened, the
    logits depend on the length of the text only and a row is normalised
    by its sum. *)
Definition demo_softmax (logits : list (list float)) : list (list float) :=
  (λ row, (λ x, SFdiv 53 1024 x (foldr (SFadd 53 1024) (S754_zero false) row)) <$> row)
    <$> logits.

Definition demo_libs : Libs := {|
  float_prec := 53;
  float_emax := 1024;
  blob := list str;
  page := str;
  tokens := str;
  pdfplumber_open := λ b, match b with [] => Raise PdfOpenError | _ => Ok b end;
  extract_text := λ p, p;
  docx2txt_process := λ b, match b with [] => Raise DocxError | _ => Ok (concat b) end;
  tokenizer := λ s, Ok (take 512 s);
  model_logits := λ t, Ok [[b64 (Z.of_nat (length t)); b64 1; b64 2; b64 2; b64 3]];
  torch_softmax := demo_softmax
|}.

Definition demo_pdf : @UploadedFile demo_libs :=
  @mk_file demo_libs mime_pdf [lit " Ada Lovelace"; lit "Analyst "].
Definition demo_docx : @UploadedFile demo_libs :=
  @mk_file demo_libs mime_docx [lit "Grace Hopper"].
Definition demo_txt : @UploadedFile demo_libs :=
  @mk_file demo_libs (lit "text/plain") [lit "notes"].
Definition demo_candidates : list Candidate :=
  [mk_candidate (lit "first") float_72_50 float_72_50 float_72_50;
   mk_candidate (lit "second") float_88_10 float_88_10 float_88_10;
   mk_candidate (lit "third") float_88_10 float_88_10 float_88_10].
Definition demo_candidates_other : list Candidate :=
  [mk_candidate (lit "uno") float_72_50 float_88_10 float_72_50;
   mk_candidate (lit "due") float_88_10 float_72_50 float_88_10;
   mk_candidate (lit "tre") float_88_10 float_88_10 float_72_50].
Definition demo_world : @world demo_libs :=
  @mk_world demo_libs (<["uploaded_files" := VList [IFile demo_pdf]]> ∅) [PageHeader].

(** The same stand-ins with a classifier that raises on the empty text. *)
Definition strict_libs : Libs := {|
  float_prec := 53;
  float_emax := 1024;
  blob := list str;
  page := str;
  tokens := str;
  pdfplumber_open := λ b, match b with [] => Raise PdfOpenError | _ => Ok b end;
  extract_text := λ p, p;
  docx2txt_process := λ b, match b with [] => Raise DocxError | _ => Ok (concat b) end;
  tokenizer := λ s, Ok (take 512 s);
  model_logits := λ t,
    match t with
    | [] => Raise ClassifierError
    | _ => Ok [[b64 (Z.of_nat (length t)); b64 1; b64 2; b64 2; b64 3]]
    end;
  torch_softmax := demo_softmax
|}.

(** The same stand-ins with a classifier of a single class. *)
Definition short_libs : Libs := {|
  float_prec := 53;
  float_emax := 1024;
  blob := list str;
  page := str;
  tokens := str;
  pdfplumber_open := λ b, match b with [] => Raise PdfOpenError | _ => Ok b end;
  extract_text := λ p, p;
  docx2txt_process := λ b, match b with [] => Raise DocxError | _ => Ok (concat b) end;
  tokenizer := λ s, Ok (take 512 s);
  model_logits := λ t, Ok [[b64 (Z.of_nat (length t))]];
  torch_softmax := demo_softmax
|}.

(** The same stand-ins with a classifier whose first two logits depend on
    the first character of the text. *)
Definition swap_libs : Libs := {|
  float_prec := 53;
  float_emax := 1024;
  blob := list str;
  page := str;
  tokens := str;
  pdfplumber_open := λ b, match b with [] => Raise PdfOpenError | _ => Ok b end;
  extract_text := λ p, p;
  docx2txt_process := λ b, match b with [] => Raise DocxError | _ => Ok (concat b) end;
  tokenizer := λ s, Ok (take 512 s);
  model_logits := λ t,
    match t with
    | 97%N :: _ => Ok [[b64 1; b64 2; b64 2; b64 2; b64 3]]
    | _ => Ok [[b64 2; b64 1; b64 2; b64 2; b64 3]]
    end;
  torch_softmax := demo_softmax
|}.

Definition demo_blank_pdf : @UploadedFile demo_libs :=
  @mk_file demo_libs mime_pdf [lit "  "; []; [9%N]].
Definition demo_broken_pdf : @UploadedFile demo_libs :=
  @mk_file demo_libs mime_pdf [].
Definition strict_pdf : @UploadedFile strict_libs :=
  @mk_file strict_libs mime_pdf [lit " Ada Lovelace"; lit "Analyst "].
Definition strict_blank_pdf : @UploadedFile strict_libs :=
  @mk_file strict_libs mime_pdf [lit "  "].

Definition demo_fresh : @world demo_libs := @mk_world demo_libs ∅ [].
Definition demo_other_world : @world demo_libs :=
  @mk_world demo_libs
    (<["theme" := VNone]> (<["uploaded_files" := VList [IFile demo_pdf]]> ∅)) [].

(** ** The scoring loop *)

Section ScoringFacts.
Context `{Libs}.

Lemma getitem_Ok {A} (l : list A) (i : nat) (x : A) :
  getitem l i = Ok x ↔ l !! i = Some x.
Proof. unfold getitem. destruct (l !! i); split; congruence. Qed.

(** The loop body appends exactly one tuple, the one computed for the
    text, and leaves the tuples already there in place. *)
Lemma rank_step_acc (acc : list Candidate) (text : str) :
  rank_step acc text =
    match candidate_for text with
    | Ok c => Ok (acc ++ [c])
    | Raise e => Raise e
    end.
Proof.
  unfold candidate_for, rank_step.
  destruct (analyze_cv_text text) as [cv_scores|e]; simpl; [|done].
  destruct (getitem cv_scores 0) as [row|e]; simpl; [|done].
  destruct (getitem row 0) as [p0|e]; simpl; [|done].
  destruct (getitem row 1) as [p1|e]; simpl; done.
Qed.

Lemma candidate_for_Ok (text : str) (c : Candidate) :
  candidate_for text = Ok c ↔
  ∃ cv_scores row p0 p1,
    analyze_cv_text text = Ok cv_scores ∧ cv_scores !! 0%nat = Some row ∧
    row !! 0%nat = Some p0 ∧ row !! 1%nat = Some p1 ∧
    c = mk_candidate text
          (fadd (fmul float_half (fmul p0 float_100))
                (fmul float_half (fmul p1 float_100)))
          (fmul p0 float_100) (fmul p1 float_100).
Proof.
  unfold candidate_for, rank_step. split.
  - destruct (analyze_cv_text text) as [cv_scores|e]; simpl; [|done].
    destruct (getitem cv_scores 0) as [row|e] eqn:Hrow; simpl; [|done].
    destruct (getitem row 0) as [p0|e] eqn:Hp0; simpl; [|done].
    destruct (getitem row 1) as [p1|e] eqn:Hp1; simpl; [|done].
    intros [= <-]. exists cv_scores, row, p0, p1.
    apply getitem_Ok in Hrow. apply getitem_Ok in Hp0. apply getitem_Ok in Hp1. done.
  - intros (cv_scores & row & p0 & p1 & -> & Hrow & Hp0 & Hp1 & ->). simpl.
    apply getitem_Ok in Hrow. apply getitem_Ok in Hp0. apply getitem_Ok in Hp1.
    rewrite Hrow. simpl. rewrite Hp0. simpl. rewrite Hp1. done.
Qed.

Lemma scored_candidate_for (text : str) :
  scored text ↔ ∃ c, candidate_for text = Ok c.
Proof.
  split.
  - intros (cv_scores & row & p0 & p1 & Ha & Hrow & Hp0 & Hp1).
    eexists. apply candidate_for_Ok. by exists cv_scores, row, p0, p1.
  - intros [c (cv_scores & row & p0 & p1 & Ha & Hrow & Hp0 & Hp1 & _)%candidate_for_Ok].
    by exists cv_scores, row, p0, p1.
Qed.

(** What the loop returns, for any tuples already collected. *)
Lemma for_each_rank_step_Ok (cv_data : list str) (acc out : list Candidate) :
  for_each rank_step cv_data acc = Ok out ↔
  ∃ cs, out = acc ++ cs ∧ Forall2 (λ text c, candidate_for text = Ok c) cv_data cs.
Proof.
  revert acc out. induction cv_data as [|text cv_data IH]; intros acc out; simpl.
  - split.
    + intros [= <-]. exists []. by rewrite app_nil_r.
    + intros (cs & -> & ->%Forall2_nil_inv_l). by rewrite app_nil_r.
  - rewrite rank_step_acc. destruct (candidate_for text) as [c|e] eqn:Hc.
    + rewrite IH. split.
      * intros (cs & -> & Hcs). exists (c :: cs). rewrite <- app_assoc. split; [done|].
        by constructor.
      * intros (cs & -> & Hcs). apply Forall2_cons_inv_l in Hcs as (c' & cs' & Hc' & Hcs' & ->).
        exists cs'. rewrite <- app_assoc. split; [|done]. simpl. congruence.
    + split; [done|]. intros (cs & -> & Hcs).
      apply Forall2_cons_inv_l in Hcs as (c' & cs' & Hc' & _). congruence.
Qed.

Lemma rank_candidates_Ok (cv_data : list str) (out : list Candidate) :
  rank_candidates cv_data = Ok out ↔
  Forall2 (λ text c, candidate_for text = Ok c) cv_data out.
Proof.
  unfold rank_candidates. rewrite for_each_rank_step_Ok. simpl. split.
  - by intros (cs & -> & Hcs).
  - intros Hcs. by exists out.
Qed.

(** The loop returns whenever the classifier answers on every text. *)
Lemma rank_candidates_total (cv_data : list str) :
  Forall scored cv_data → ∃ out, rank_candidates cv_data = Ok out.
Proof.
  intros Hs.
  assert (∃ out, Forall2 (λ text c, candidate_for text = Ok c) cv_data out) as [out Hout].
  { induction Hs as [|text cv_data [c Hc]%scored_candidate_for _ [out IH]].
    - by exists [].
    - exists (c :: out). by constructor. }
  exists out. by apply rank_candidates_Ok.
Qed.

End ScoringFacts.

Section ScoringClaims.
Context `{Libs}.

(** C1: [rank_candidates] gives every text a tuple, at the text's position,
    whose skills and experience scores are entries 0 and 1 of the
    classifier's answer times 100 and whose total score is
    [0.5 * skills_score + 0.5 * experience_score], the average of the two
    as the code computes it (each operation is a floating-point operation
    of the scalars' format); it returns whenever the classifier answers on
    every text. *)
Theorem rank_candidates_total_is_average (cv_data : list str) :
  (∀ out : list Candidate,
     rank_candidates cv_data = Ok out →
     length out = length cv_data ∧
     Forall (λ c, total_score c =
                  fadd (fmul float_half (skills_score c))
                       (fmul float_half (experience_score c))) out ∧
     ∀ (i : nat) (text : str), cv_data !! i = Some text →
       ∃ (c : Candidate) (cv_scores : list (list float)) (row : list float)
         (p0 p1 : float),
         out !! i = Some c ∧ cv c = text ∧
         analyze_cv_text text = Ok cv_scores ∧ cv_scores !! 0%nat = Some row ∧
         row !! 0%nat = Some p0 ∧ row !! 1%nat = Some p1 ∧
         skills_score c = fmul p0 float_100 ∧
         experience_score c = fmul p1 float_100 ∧
         total_score c =
           fadd (fmul float_half (skills_score c))
                (fmul float_half (experience_score c))) ∧
  (Forall scored cv_data → ∃ out : list Candidate, rank_candidates cv_data = Ok out).
Proof.
  split; [|apply rank_candidates_total].
  intros out Hout%rank_candidates_Ok. split; [|split].
  - symmetry. by eapply Forall2_length.
  - induction Hout as [|text c cv_data out Hc _ IH]; constructor; [|done].
    apply candidate_for_Ok in Hc as (? & ? & p0 & p1 & _ & _ & _ & _ & ->). done.
  - intros i text Hi.
    destruct (Forall2_lookup_l _ _ _ _ _ Hout Hi) as (c & Hc & Hfor).
    apply candidate_for_Ok in Hfor as (cv_scores & row & p0 & p1 & ? & ? & ? & ? & ->).
    eexists _, cv_scores, row, p0, p1. split; [exact Hc|]. done.
Qed.

(** C8: when the classifier answers on every text, [rank_candidates]
    returns its results in input order: the i-th result is the tuple
    computed for the i-th input text. *)
Theorem rank_candidates_preserves_order (cv_data : list str) :
  Forall scored cv_data →
  ∃ out, rank_candidates cv_data = Ok out ∧
    ∀ (i : nat) (text : str), cv_data !! i = Some text →
      ∃ c, out !! i = Some c ∧ candidate_for text = Ok c.
Proof.
  intros [out Hout]%rank_candidates_total. exists out. split; [done|].
  apply rank_candidates_Ok in Hout. intros i text Hi.
  destruct (Forall2_lookup_l _ _ _ _ _ Hout Hi) as (c & Hc & Hfor). by exists c.
Qed.

(** C10: when the classifier answers on every text, [rank_candidates]
    returns a list as long as its input, and the first component of the
    i-th tuple is the i-th input text, unchanged. *)
Theorem rank_candidates_length_and_text (cv_data : list str) :
  Forall scored cv_data →
  ∃ out, rank_candidates cv_data = Ok out ∧
    length out = length cv_data ∧
    ∀ (i : nat) (c : Candidate), out !! i = Some c → cv_data !! i = Some (cv c).
Proof.
  intros [out Hout]%rank_candidates_total. exists out. split; [done|].
  apply rank_candidates_Ok in Hout. split.
  - symmetry. by eapply Forall2_length.
  - intros i c Hi.
    destruct (Forall2_lookup_r _ _ _ _ _ Hout Hi) as (text & Htext & Hfor).
    apply candidate_for_Ok in Hfor as (? & ? & p0 & p1 & _ & _ & _ & _ & ->). done.
Qed.

End ScoringClaims.

Lemma demo_scored (text : str) : @scored demo_libs text.
Proof.
  unfold scored. eexists _, _, _, _.
  split; [reflexivity|]. split; [reflexivity|]. split; reflexivity.
Qed.

Lemma rank_candidates_total_is_average_witness :
  ∃ out : list Candidate,
    @rank_candidates demo_libs [lit "Ada Lovelace"; lit "Grace"] = Ok out ∧
    length out = 2%nat ∧
    Forall (λ c, total_score c =
                 @fadd demo_libs (@fmul demo_libs (@float_half demo_libs) (skills_score c))
                       (@fmul demo_libs (@float_half demo_libs) (experience_score c))) out ∧
    ∃ (c : Candidate) (p0 : float),
      out !! 1%nat = Some c ∧ cv c = lit "Grace" ∧
      skills_score c = @fmul demo_libs p0 (@float_100 demo_libs).
Proof.
  destruct (@rank_candidates_total (demo_libs) [lit "Ada Lovelace"; lit "Grace"])
    as [out Hout].
  { repeat constructor; apply demo_scored. }
  destruct (proj1 (@rank_candidates_total_is_average demo_libs
                     [lit "Ada Lovelace"; lit "Grace"]) out Hout)
    as (Hlen & Havg & Hat).
  exists out. split; [exact Hout|]. split; [exact Hlen|]. split; [exact Havg|].
  destruct (Hat 1%nat (lit "Grace") eq_refl)
    as (c & cv_scores & row & p0 & p1 & Hc & Hcv & _ & _ & _ & _ & Hskills & _).
  by exists c, p0.
Defined.

Lemma rank_candidates_preserves_order_witness :
  ∃ out, @rank_candidates demo_libs [lit "Ada Lovelace"; lit "Grace"] = Ok out ∧
    ∀ (i : nat) (text : str), [lit "Ada Lovelace"; lit "Grace"] !! i = Some text →
      ∃ c, out !! i = Some c ∧ @candidate_for demo_libs text = Ok c.
Proof.
  apply (@rank_candidates_preserves_order demo_libs [lit "Ada Lovelace"; lit "Grace"]).
  repeat constructor; apply demo_scored.
Defined.

Lemma rank_candidates_length_and_text_witness :
  ∃ out, @rank_candidates demo_libs [lit "Ada Lovelace"; lit "Grace"] = Ok out ∧
    length out = 2%nat ∧
    ∀ (i : nat) (c : Candidate), out !! i = Some c →
      [lit "Ada Lovelace"; lit "Grace"] !! i = Some (cv c).
Proof.
  apply (@rank_candidates_length_and_text demo_libs [lit "Ada Lovelace"; lit "Grace"]).
  repeat constructor; apply demo_scored.
Defined.

(** ** The order of floating-point scalars *)

Section FloatOrder.

Lemma SFcompare_swap (x y : float) :
  SFcompare y x = CompOpp <$> SFcompare x y.
Proof.
  destruct x as [[]|[]| |[] mx ex], y as [[]|[]| |[] my ey]; simpl; try reflexivity;
    f_equal; rewrite (Z.compare_antisym ey ex);
    change (Pos.compare_cont Eq ?a ?b) with (Pos.compare a b);
    rewrite (Pos.compare_antisym my mx);
    destruct (ey ?= ex)%Z, (my ?= mx)%positive; reflexivity.
Qed.

Ltac compare_cases :=
  repeat match goal with
  | H : context [Z.compare ?a ?b] |- _ => destruct (Z.compare_spec a b)
  | H : context [Pos.compare ?a ?b] |- _ => destruct (Pos.compare_spec a b)
  | |- context [Z.compare ?a ?b] => destruct (Z.compare_spec a b)
  | |- context [Pos.compare ?a ?b] => destruct (Pos.compare_spec a b)
  end; simpl in *; try congruence; try lia.

Lemma SFcompare_trans (x y z : float) (c : comparison) :
  SFcompare x y = Some c → SFcompare y z = Some c → SFcompare x z = Some c.
Proof.
  destruct x as [[]|[]| |[] mx ex], y as [[]|[]| |[] my ey], z as [[]|[]| |[] mz ez];
    simpl; try congruence;
    change (Pos.compare_cont Eq ?a ?b) with (Pos.compare a b);
    intros Hxy Hyz; injection Hxy as Hxy; injection Hyz as Hyz; f_equal; subst c;
    compare_cases.
Qed.

Lemma SFcompare_Eq_l (x y z : float) :
  SFcompare x y = Some Eq → SFcompare x z = SFcompare y z.
Proof.
  destruct x as [[]|[]| |[] mx ex], y as [[]|[]| |[] my ey], z as [[]|[]| |[] mz ez];
    simpl; try congruence;
    change (Pos.compare_cont Eq ?a ?b) with (Pos.compare a b);
    intros Hxy; injection Hxy as Hxy; f_equal;
    compare_cases.
Qed.

Lemma SFcompare_Eq_r (x y z : float) :
  SFcompare y z = Some Eq → SFcompare x y = SFcompare x z.
Proof.
  intros Hyz. rewrite (SFcompare_swap y x), (SFcompare_swap z x).
  f_equal. apply SFcompare_Eq_l. done.
Qed.

Lemma SFcompare_Some (x y : float) :
  x ≠ S754_nan → y ≠ S754_nan → ∃ c, SFcompare x y = Some c.
Proof.
  intros Hx Hy.
  destruct x as [[]|[]| |[] mx ex], y as [[]|[]| |[] my ey]; simpl; try done; eauto.
Qed.

Lemma float_le_refl (x : float) : x ≠ S754_nan → SFleb x x = true.
Proof.
  intros Hx. unfold SFleb.
  destruct x as [[]|[]| |[] mx ex]; simpl; try done;
    change (Pos.compare_cont Eq ?a ?b) with (Pos.compare a b);
    rewrite Z.compare_refl, Pos.compare_refl; done.
Qed.

Lemma float_lt_le (x y : float) : SFltb x y = true → SFleb x y = true.
Proof. unfold SFltb, SFleb. by destruct (SFcompare x y) as [[]|]. Qed.

(** On scalars other than NaN, [y > x] is false only when [y <= x]. *)
Lemma float_not_gt_le (x y : float) :
  x ≠ S754_nan → y ≠ S754_nan → float_gt y x = false → SFleb y x = true.
Proof.
  intros Hx Hy. unfold float_gt, SFltb, SFleb. rewrite (SFcompare_swap y x).
  destruct (SFcompare_Some y x Hy Hx) as [c ->]. by destruct c.
Qed.

Lemma float_le_trans (x y z : float) :
  SFleb x y = true → SFleb y z = true → SFleb x z = true.
Proof.
  unfold SFleb. destruct (SFcompare x y) as [[]|] eqn:Hxy; try done;
    destruct (SFcompare y z) as [[]|] eqn:Hyz; try done; intros _ _.
  - by rewrite (SFcompare_Eq_l _ _ _ Hxy), Hyz.
  - by rewrite (SFcompare_Eq_l _ _ _ Hxy), Hyz.
  - by rewrite <- (SFcompare_Eq_r _ _ _ Hyz), Hxy.
  - by rewrite (SFcompare_trans _ _ _ _ Hxy Hyz).
Qed.

Lemma float_lt_le_trans (x y z : float) :
  SFltb x y = true → SFleb y z = true → SFltb x z = true.
Proof.
  unfold SFltb, SFleb. destruct (SFcompare x y) as [[]|] eqn:Hxy; try done;
    destruct (SFcompare y z) as [[]|] eqn:Hyz; try done; intros _ _.
  - by rewrite <- (SFcompare_Eq_r _ _ _ Hyz), Hxy.
  - by rewrite (SFcompare_trans _ _ _ _ Hxy Hyz).
Qed.

Lemma float_le_lt_trans (x y z : float) :
  SFleb x y = true → SFltb y z = true → SFltb x z = true.
Proof.
  unfold SFltb, SFleb. destruct (SFcompare x y) as [[]|] eqn:Hxy; try done;
    destruct (SFcompare y z) as [[]|] eqn:Hyz; try done; intros _ _.
  - by rewrite (SFcompare_Eq_l _ _ _ Hxy), Hyz.
  - by rewrite (SFcompare_trans _ _ _ _ Hxy Hyz).
Qed.

End FloatOrder.

(** ** The best candidate *)

Section BestCandidate.

(** The scan keeps an item of the list that no item exceeds and that every
    item before it is strictly below. *)
Lemma max_scan_first_max (rest : list Candidate) (maxitem : Candidate) :
  Forall (λ c, total_score c ≠ S754_nan) (maxitem :: rest) →
  ∃ i : nat,
    (maxitem :: rest) !! i = Some (max_scan maxitem rest) ∧
    Forall (le_total (max_scan maxitem rest)) (maxitem :: rest) ∧
    ∀ (j : nat) (c : Candidate), (j < i)%nat → (maxitem :: rest) !! j = Some c →
      SFltb (total_score c) (total_score (max_scan maxitem rest)) = true.
Proof.
  revert maxitem. induction rest as [|item rest IH]; intros maxitem Hnan.
  - exists 0%nat. simpl. split; [done|]. split; [|lia].
    constructor; [|done]. apply float_le_refl. by inversion Hnan.
  - inversion Hnan as [|? ? Hmax Hrest]; subst.
    inversion Hrest as [|? ? Hitem Hrest']; subst. simpl.
    destruct (float_gt (total_score item) (total_score maxitem)) eqn:Hgt.
    + destruct (IH item Hrest) as (i & Hi & Hle & Hfirst).
      inversion Hle as [|? ? Hle_item Hle_rest]; subst.
      assert (SFltb (total_score maxitem) (total_score (max_scan item rest)) = true)
        as Hlt by (eapply float_lt_le_trans; [exact Hgt|exact Hle_item]).
      exists (S i). split; [done|]. split.
      * constructor; [by apply float_lt_le|done].
      * intros [|j] c Hj Hc; simpl in Hc.
        -- by injection Hc as <-.
        -- apply (Hfirst j); [lia|done].
    + assert (SFleb (total_score item) (total_score maxitem) = true)
        as Hitem_le by (by apply float_not_gt_le).
      destruct (IH maxitem) as (i & Hi & Hle & Hfirst); [by constructor|].
      inversion Hle as [|? ? Hle_max Hle_rest]; subst.
      destruct i as [|i].
      * exists 0%nat. split; [done|]. split; [|lia].
        constructor; [done|]. constructor; [|done].
        unfold le_total. by eapply float_le_trans.
      * assert (SFltb (total_score maxitem) (total_score (max_scan maxitem rest)) = true)
          as Hlt by (apply (Hfirst 0%nat); [lia|done]).
        exists (S (S i)). split; [done|]. split.
        -- constructor; [done|]. constructor; [|done].
           unfold le_total. by eapply float_le_trans.
        -- intros [|[|j]] c Hj Hc; simpl in Hc.
           ++ by injection Hc as <-.
           ++ injection Hc as <-. by eapply float_le_lt_trans.
           ++ apply (Hfirst (S j)); [lia|done].
Qed.

(** The item the scan keeps sits where the scan of the keys points. *)
Lemma max_scan_at_index (rest pre : list Candidate) (maxitem : Candidate) (maxpos : nat) :
  (pre ++ rest) !! maxpos = Some maxitem →
  (pre ++ rest) !!
      max_scan_index (total_score maxitem) maxpos (length pre) (total_score <$> rest)
    = Some (max_scan maxitem rest).
Proof.
  revert pre maxitem maxpos. induction rest as [|item rest IH]; intros pre maxitem maxpos Hmax.
  - done.
  - simpl. replace (pre ++ item :: rest) with ((pre ++ [item]) ++ rest) in *
      by (by rewrite <- app_assoc).
    replace (S (length pre)) with (length (pre ++ [item]))
      by (rewrite length_app; simpl; lia).
    destruct (float_gt (total_score item) (total_score maxitem)).
    + apply IH. rewrite lookup_app_l by (rewrite length_app; simpl; lia).
      by rewrite list_lookup_middle.
    + by apply IH.
Qed.

Lemma best_candidate_at_index (candidates : list Candidate) (best : Candidate) :
  best_candidate candidates = Ok best →
  ∃ i : nat, best_index (total_score <$> candidates) = Some i ∧
             candidates !! i = Some best.
Proof.
  destruct candidates as [|item rest]; [done|]. simpl. intros [= <-].
  eexists. split; [done|].
  apply (max_scan_at_index rest [item] item 0). done.
Qed.

(** C2: on a non-empty list of candidates whose total scores are numbers,
    the best candidate has the maximal total score and is the first
    candidate, in list order, that has it; with total scores
    [72.50, 88.10, 88.10] it is the candidate at index 1. *)
Theorem best_candidate_first_maximum :
  (∀ candidates : list Candidate,
     candidates ≠ [] →
     Forall (λ c, total_score c ≠ S754_nan) candidates →
     ∃ (i : nat) (best : Candidate),
       best_candidate candidates = Ok best ∧
       candidates !! i = Some best ∧
       (∀ c, c ∈ candidates → SFleb (total_score c) (total_score best) = true) ∧
       (∀ (j : nat) (c : Candidate), (j < i)%nat → candidates !! j = Some c →
          SFltb (total_score c) (total_score best) = true)) ∧
  (∀ c0 c1 c2 : Candidate,
     total_score c0 = float_72_50 → total_score c1 = float_88_10 →
     total_score c2 = float_88_10 →
     best_candidate [c0; c1; c2] = Ok c1).
Proof.
  split.
  - intros [|item rest] Hne Hnan; [done|].
    destruct (max_scan_first_max rest item Hnan) as (i & Hi & Hle & Hfirst).
    exists i, (max_scan item rest). split; [done|]. split; [done|]. split; [|done].
    intros c Hc. by apply (proj1 (Forall_forall _ _) Hle).
  - intros c0 c1 c2 H0 H1 H2. simpl. unfold float_gt. rewrite H0, H1, H2. done.
Qed.

(** C9: the choice of the best candidate is a function of the list: two
    lists with the same total scores in the same order have their best
    candidate at the same position, the one the scan of the scores gives;
    in particular two calls on one list return the same candidate. *)
Theorem best_candidate_deterministic (candidates1 candidates2 : list Candidate)
    (best1 : Candidate) :
  total_score <$> candidates1 = total_score <$> candidates2 →
  best_candidate candidates1 = Ok best1 →
  ∃ (i : nat) (best2 : Candidate),
    best_index (total_score <$> candidates1) = Some i ∧
    candidates1 !! i = Some best1 ∧
    best_candidate candidates2 = Ok best2 ∧
    candidates2 !! i = Some best2.
Proof.
  intros Htotals Hbest1.
  destruct (best_candidate_at_index _ _ Hbest1) as (i & Hi & Hat1).
  destruct candidates2 as [|item2 rest2].
  - destruct candidates1; [done|discriminate Htotals].
  - destruct (best_candidate_at_index (item2 :: rest2) (max_scan item2 rest2) eq_refl)
      as (i2 & Hi2 & Hat2).
    rewrite <- Htotals, Hi in Hi2. injection Hi2 as <-.
    by exists i, (max_scan item2 rest2).
Qed.

End BestCandidate.

Lemma best_candidate_first_maximum_witness :
  ∃ (i : nat) (best : Candidate),
    best_candidate demo_candidates = Ok best ∧
    demo_candidates !! i = Some best ∧
    (∀ c, c ∈ demo_candidates → SFleb (total_score c) (total_score best) = true) ∧
    (∀ (j : nat) (c : Candidate), (j < i)%nat → demo_candidates !! j = Some c →
       SFltb (total_score c) (total_score best) = true).
Proof.
  apply (proj1 best_candidate_first_maximum demo_candidates).
  - discriminate.
  - repeat constructor; discriminate.
Defined.

Lemma best_candidate_deterministic_witness :
  ∃ (i : nat) (best2 : Candidate),
    best_index (total_score <$> demo_candidates) = Some i ∧
    demo_candidates !! i =
      Some (mk_candidate (lit "second") float_88_10 float_88_10 float_88_10) ∧
    best_candidate demo_candidates_other = Ok best2 ∧
    demo_candidates_other !! i = Some best2.
Proof.
  apply (best_candidate_deterministic demo_candidates demo_candidates_other).
  - reflexivity.
  - reflexivity.
Defined.

(** ** Stripping *)

Section Strip.

Lemma lstrip_split (s : str) :
  ∃ lead : str, s = lead ++ lstrip s ∧ Forall (λ c, isspace c = true) lead.
Proof.
  induction s as [|c s (lead & Hs & Hlead)]; simpl.
  - by exists [].
  - destruct (isspace c) eqn:Hc.
    + exists (c :: lead). split; [simpl; congruence|by constructor].
    + by exists [].
Qed.

Lemma lstrip_head (s : str) (c : N) : head (lstrip s) = Some c → isspace c = false.
Proof.
  induction s as [|c' s IH]; simpl; [done|].
  destruct (isspace c') eqn:Hc'; [done|]. simpl. congruence.
Qed.

Lemma rstrip_split (s : str) :
  ∃ trail : str, s = rstrip s ++ trail ∧ Forall (λ c, isspace c = true) trail.
Proof.
  unfold rstrip. destruct (lstrip_split (reverse s)) as (lead & Hs & Hlead).
  exists (reverse lead). split.
  - rewrite <- reverse_app, <- Hs. by rewrite reverse_involutive.
  - by apply Forall_reverse.
Qed.

Lemma rstrip_last (s : str) (c : N) : last (rstrip s) = Some c → isspace c = false.
Proof. unfold rstrip. rewrite last_reverse. apply lstrip_head. Qed.

(** Stripping on the right keeps the first character of what is left. *)
Lemma rstrip_head (s : str) (c : N) :
  head (rstrip s) = Some c → head s = Some c.
Proof.
  destruct (rstrip_split s) as (trail & Hs & _). intros Hc.
  rewrite Hs. destruct (rstrip s); [done|]. done.
Qed.

Lemma strip_spec (s : str) :
  ∃ lead trail : str,
    s = lead ++ strip s ++ trail ∧
    Forall (λ c, isspace c = true) lead ∧ Forall (λ c, isspace c = true) trail ∧
    (∀ c, head (strip s) = Some c → isspace c = false) ∧
    (∀ c, last (strip s) = Some c → isspace c = false).
Proof.
  unfold strip.
  destruct (lstrip_split s) as (lead & Hs & Hlead).
  destruct (rstrip_split (lstrip s)) as (trail & Ht & Htrail).
  exists lead, trail. split; [congruence|]. split; [done|]. split; [done|]. split.
  - intros c Hc%rstrip_head. by eapply lstrip_head.
  - apply rstrip_last.
Qed.

End Strip.

(** ** Extraction and the upload loop *)

Section Extraction.
Context `{Libs}.

(** The loop over the pages builds the text of the specification. *)
Lemma pages_loop (pages : list page) (text : str) :
  fold_left (λ text page, text ++ (extract_text page ++ newline)) pages text =
  text ++ pages_text pages.
Proof.
  revert text. induction pages as [|p pages IH]; intros text; simpl.
  - by rewrite app_nil_r.
  - rewrite IH. unfold pages_text. simpl. by rewrite <- !app_assoc.
Qed.

(** C5: for a PDF the parser opens, [extract_text_from_pdf] returns the
    texts of the pages in page order, each followed by a newline, with the
    white space at both ends removed; it does not touch the session or the
    page. *)
Theorem extract_text_from_pdf_spec (pdf_path : blob) (pages : list page) :
  pdfplumber_open pdf_path = Ok pages →
  ∃ text lead trail : str,
    extract_text_from_pdf pdf_path = Ok text ∧
    pages_text pages = lead ++ text ++ trail ∧
    Forall (λ c, isspace c = true) lead ∧
    Forall (λ c, isspace c = true) trail ∧
    (∀ c, head text = Some c → isspace c = false) ∧
    (∀ c, last text = Some c → isspace c = false) ∧
    (∀ w : world, snd (lift (extract_text_from_pdf pdf_path) w) = w).
Proof.
  intros Hopen. unfold extract_text_from_pdf. rewrite Hopen. simpl.
  rewrite pages_loop. simpl.
  destruct (strip_spec (pages_text pages)) as (lead & trail & Hs & Hl & Ht & Hh & Hla).
  exists (strip (pages_text pages)), lead, trail. done.
Qed.

Lemma upload_step_unsupported (cvs : list str) (f : UploadedFile) :
  accepted f = false → upload_step cvs f = Ok cvs.
Proof.
  unfold accepted, upload_step. intros [Hpdf Hdocx]%orb_false_elim.
  by rewrite Hpdf, Hdocx.
Qed.

Lemma upload_step_length (cvs cvs' : list str) (f : UploadedFile) :
  accepted f = true → upload_step cvs f = Ok cvs' → length cvs' = S (length cvs).
Proof.
  unfold accepted, upload_step. intros Hacc.
  destruct (bool_decide (file_type f = mime_pdf)).
  - destruct (extract_text_from_pdf (file_data f)); simpl; [|done].
    intros [= <-]. rewrite length_app. simpl. lia.
  - destruct (bool_decide (file_type f = mime_docx)); [|done].
    destruct (extract_text_from_word (file_data f)); simpl; [|done].
    intros [= <-]. rewrite length_app. simpl. lia.
Qed.

Lemma upload_loop_filter (uploaded_files : list UploadedFile) (cvs : list str) :
  for_each upload_step uploaded_files cvs =
  for_each upload_step (List.filter accepted uploaded_files) cvs.
Proof.
  revert cvs. induction uploaded_files as [|f files IH]; intros cvs; simpl; [done|].
  destruct (accepted f) eqn:Hf; simpl.
  - destruct (upload_step cvs f); [apply IH|done].
  - rewrite upload_step_unsupported by done. apply IH.
Qed.

Lemma upload_loop_length (uploaded_files : list UploadedFile) (cvs out : list str) :
  for_each upload_step uploaded_files cvs = Ok out →
  length out = (length cvs + length (List.filter accepted uploaded_files))%nat.
Proof.
  revert cvs. induction uploaded_files as [|f files IH]; intros cvs; simpl.
  - intros [= <-]. lia.
  - destruct (accepted f) eqn:Hf; simpl.
    + destruct (upload_step cvs f) as [cvs'|e] eqn:Hstep; [|done].
      intros ->%IH. rewrite (upload_step_length _ _ _ Hf Hstep). lia.
    + rewrite upload_step_unsupported by done. apply IH.
Qed.

(** C4: a file whose declared type is neither of the two accepted types
    leaves the collected texts as they are and raises nothing; the upload
    loop does what it does on the accepted files alone, and the texts and
    candidates it leads to are as many as the accepted files. *)
Theorem unsupported_files_skipped (uploaded_files : list UploadedFile) :
  (∀ (cvs : list str) (f : UploadedFile),
     file_type f ≠ mime_pdf → file_type f ≠ mime_docx → upload_step cvs f = Ok cvs) ∧
  collect_cvs uploaded_files = collect_cvs (List.filter accepted uploaded_files) ∧
  (Forall (λ f, file_type f ≠ mime_pdf ∧ file_type f ≠ mime_docx) uploaded_files →
     collect_cvs uploaded_files = Ok []) ∧
  (∀ cvs candidates,
     collect_cvs uploaded_files = Ok cvs → rank_candidates cvs = Ok candidates →
     length cvs = length (List.filter accepted uploaded_files) ∧
     length candidates = length (List.filter accepted uploaded_files)).
Proof.
  split; [|split; [|split]].
  - intros cvs f Hpdf Hdocx. apply upload_step_unsupported. unfold accepted.
    by rewrite !bool_decide_eq_false_2.
  - apply upload_loop_filter.
  - intros Hall. unfold collect_cvs. rewrite upload_loop_filter.
    replace (List.filter accepted uploaded_files) with (@nil UploadedFile); [done|].
    induction Hall as [|f files [Hpdf Hdocx] _ IH]; [done|]. simpl.
    unfold accepted at 1. by rewrite !bool_decide_eq_false_2.
  - intros cvs candidates Hcvs Hrank.
    apply upload_loop_length in Hcvs. simpl in Hcvs. split; [done|].
    apply rank_candidates_Ok, Forall2_length in Hrank. congruence.
Qed.

End Extraction.

Lemma extract_text_from_pdf_spec_witness :
  ∃ text lead trail : str,
    @extract_text_from_pdf demo_libs (file_data demo_pdf) = Ok text ∧
    @pages_text demo_libs (file_data demo_pdf) = lead ++ text ++ trail ∧
    Forall (λ c, isspace c = true) lead ∧
    Forall (λ c, isspace c = true) trail ∧
    (∀ c, head text = Some c → isspace c = false) ∧
    (∀ c, last text = Some c → isspace c = false) ∧
    (∀ w : @world demo_libs,
       snd (lift (@extract_text_from_pdf demo_libs (file_data demo_pdf)) w) = w).
Proof.
  apply (@extract_text_from_pdf_spec demo_libs (file_data demo_pdf)).
  reflexivity.
Defined.

Lemma unsupported_files_skipped_witness :
  @collect_cvs demo_libs [demo_txt] = Ok [] ∧
  ∃ cvs candidates,
    @collect_cvs demo_libs [demo_pdf; demo_txt; demo_docx] = Ok cvs ∧
    @rank_candidates demo_libs cvs = Ok candidates ∧
    length cvs = 2%nat ∧ length candidates = 2%nat.
Proof.
  split.
  - apply (proj1 (proj2 (proj2 (@unsupported_files_skipped demo_libs [demo_txt])))).
    repeat constructor; discriminate.
  - eexists _, _. split; [vm_compute; reflexivity|]. split; [vm_compute; reflexivity|].
    apply (proj2 (proj2 (proj2
      (@unsupported_files_skipped demo_libs [demo_pdf; demo_txt; demo_docx]))));
      vm_compute; reflexivity.
Defined.

(** ** The page and the session *)

Section Page.
Context `{Libs}.
Local Open Scope script_scope.

Lemma script_bind_Ok {A B} (m : script A) (f : A → script B) (w w' : world) (b : B) :
  script_bind m f w = (Ok b, w') →
  ∃ (a : A) (w1 : world), m w = (Ok a, w1) ∧ f a w1 = (Ok b, w').
Proof.
  unfold script_bind. destruct (m w) as [[a|e] w1]; [|done]. intros Hf. by exists a, w1.
Qed.

(** [reset_state] never raises, draws nothing, and leaves the session as
    the one before with [uploaded_files] set to [None] and [candidates] to
    the empty list. *)
Lemma reset_state_run (w : world) :
  reset_state w =
    (Ok (), mk_world (<["candidates" := VList []]>
                        (<["uploaded_files" := VNone]> (session_state w)))
                     (screen w)).
Proof.
  unfold reset_state, script_bind, ss_contains, ss_del, ss_set, script_ret. simpl.
  destruct w as [ss scr]. simpl.
  destruct (bool_decide (is_Some (ss !! "uploaded_files"))); simpl.
  all: destruct (bool_decide (is_Some (_ !! "candidates"))); simpl.
  all: do 2 f_equal; apply map_eq; intros k.
  all: destruct (decide (k = "candidates")) as [Hc|Hc];
    [subst k; by simplify_map_eq|].
  all: destruct (decide (k = "uploaded_files")) as [Hu|Hu];
    [subst k; by simplify_map_eq|].
  all: by simplify_map_eq.
Qed.

Lemma session_empty_reset (ss : gmap string value) (scr : list ui) :
  session_empty
    (mk_world (<["candidates" := VList []]> (<["uploaded_files" := VNone]> ss)) scr).
Proof. unfold session_empty. simpl. by simplify_map_eq. Qed.

(** The button never raises; pressed, it leaves an empty session. *)
Lemma clear_block_run (clear : bool) (w : world) :
  ∃ (w' : world) (drawn : list ui),
    clear_block clear w = (Ok (), w') ∧ screen w' = screen w ++ drawn ∧
    (clear = true → session_empty w').
Proof.
  unfold clear_block. destruct clear.
  - unfold script_bind at 1 2. simpl.
    destruct (truthy (default VNone (session_state w !! "uploaded_files")) ||
              truthy (default VNone (session_state w !! "candidates"))) eqn:Hany.
    + unfold script_bind. rewrite reset_state_run. simpl.
      eexists _, [_]. split; [done|]. split; [done|]. intros _.
      apply session_empty_reset.
    + eexists _, [_]. simpl. split; [done|]. split; [done|]. intros _.
      by apply orb_false_elim in Hany.
  - exists w, []. split; [done|]. split; [by rewrite app_nil_r|done].
Qed.

Lemma show_results_empty (w : world) :
  show_results [] w =
    (Ok (), mk_world (session_state w)
              (screen w ++ [Warning "No candidates found. Please check the CV content."])).
Proof. done. Qed.

Lemma upload_block_no_candidates (uploaded_files : list UploadedFile) (w : world) :
  uploaded_files ≠ [] → collect_cvs uploaded_files = Ok [] →
  upload_block uploaded_files w =
    (Ok (), mk_world (<["uploaded_files" := VList (IFile <$> uploaded_files)]>
                        (session_state w))
              (screen w ++ [Spinner "Extracting text from the CVs...";
                            Warning "No candidates found. Please check the CV content."])).
Proof.
  intros Hne Hcvs. unfold upload_block. rewrite bool_decide_eq_true_2 by done.
  unfold script_bind, lift. simpl. rewrite Hcvs. simpl.
  rewrite show_results_empty. simpl. by rewrite <- app_assoc.
Qed.

(** C3: on the empty list [rank_candidates] returns the empty list and
    raises nothing; the page then shows the warning that no candidates
    were found, and the run of the script ends without an exception. *)
Theorem empty_candidates_warning :
  rank_candidates [] = Ok [] ∧
  (∀ w : world,
     show_results [] w =
       (Ok (), mk_world (session_state w)
                 (screen w ++ [Warning "No candidates found. Please check the CV content."]))) ∧
  (∀ (uploaded_files : list UploadedFile) (clear : bool) (w : world),
     uploaded_files ≠ [] → collect_cvs uploaded_files = Ok [] →
     ∃ (w' : world) (drawn : list ui),
       main uploaded_files clear w = (Ok (), w') ∧
       screen w' =
         screen w ++ [PageHeader; Spinner "Extracting text from the CVs...";
                      Warning "No candidates found. Please check the CV content."]
                  ++ drawn ++ [PageFooter]).
Proof.
  split; [done|]. split; [apply show_results_empty|].
  intros uploaded_files clear w Hne Hcvs. unfold main.
  unfold script_bind at 1. simpl. unfold script_bind at 1.
  set (w1 := mk_world (session_state w) (screen w ++ [PageHeader])).
  assert (∃ w2, (b <~ ss_contains "uploaded_files";; when negb b
                  then ss_set "uploaded_files" VNone) w1 = (Ok (), w2) ∧
                screen w2 = screen w1) as (w2 & -> & Hw2).
  { unfold script_bind, ss_contains. simpl.
    destruct (bool_decide (is_Some (session_state w !! "uploaded_files"))); simpl;
      by eexists. }
  unfold script_bind at 1. rewrite (upload_block_no_candidates _ _ Hne Hcvs).
  unfold script_bind at 1.
  destruct (clear_block_run clear
              (mk_world (<["uploaded_files" := VList (IFile <$> uploaded_files)]>
                           (session_state w2))
                 (screen w2 ++ [Spinner "Extracting text from the CVs...";
                     Warning "No candidates found. Please check the CV content."])))
    as (w3 & drawn & -> & Hw3 & _).
  eexists _, drawn. split; [done|]. simpl. rewrite Hw3. simpl. rewrite Hw2. simpl.
  by rewrite <- !app_assoc.
Qed.

(** C7: [reset_state] never raises and leaves [uploaded_files] at [None]
    and [candidates] at the empty list, whatever the session held; a run
    of the script in which the button is pressed ends with a session that
    holds no document and no candidate, as does the first run of a fresh
    session. *)
Theorem reset_state_clears :
  (∀ w : world, ∃ w' : world,
     reset_state w = (Ok (), w') ∧
     session_state w' !! "uploaded_files" = Some VNone ∧
     session_state w' !! "candidates" = Some (VList []) ∧
     session_empty w' ∧
     screen w' = screen w) ∧
  (∀ (uploaded_files : list UploadedFile) (w w' : world),
     main uploaded_files true w = (Ok (), w') → session_empty w') ∧
  (∃ w0 : world,
     main [] false (mk_world ∅ []) = (Ok (), w0) ∧
     session_state w0 !! "uploaded_files" = Some VNone ∧
     session_empty w0).
Proof.
  split; [|split].
  - intros w. eexists. split; [apply reset_state_run|]. simpl.
    split; [by simplify_map_eq|]. split; [by simplify_map_eq|].
    split; [apply session_empty_reset|done].
  - intros uploaded_files w w' Hrun. unfold main in Hrun.
    apply script_bind_Ok in Hrun as (? & w1 & _ & Hrun).
    apply script_bind_Ok in Hrun as (? & w2 & _ & Hrun).
    apply script_bind_Ok in Hrun as (? & w3 & _ & Hrun).
    apply script_bind_Ok in Hrun as (? & w4 & Hclear & Hfoot).
    destruct (clear_block_run true w3) as (w4' & drawn & Hclear' & _ & Hempty).
    rewrite Hclear' in Hclear. unfold st_emit in Hfoot. simplify_eq.
    exact (Hempty eq_refl).
  - eexists. split; [reflexivity|]. split; [reflexivity|]. done.
Qed.

End Page.

Lemma empty_candidates_warning_witness :
  ∃ (w' : @world demo_libs) (drawn : list ui),
    @main demo_libs [demo_txt] true demo_world = (Ok (), w') ∧
    screen w' =
      screen demo_world ++ [PageHeader; Spinner "Extracting text from the CVs...";
                            Warning "No candidates found. Please check the CV content."]
                        ++ drawn ++ [PageFooter].
Proof.
  apply (proj2 (proj2 (@empty_candidates_warning demo_libs)) [demo_txt] true demo_world).
  - discriminate.
  - reflexivity.
Defined.

Lemma reset_state_clears_witness :
  @session_empty demo_libs
    (snd (@main demo_libs [demo_pdf; demo_txt; demo_docx] true demo_world)).
Proof.
  apply (proj1 (proj2 (@reset_state_clears demo_libs))
           [demo_pdf; demo_txt; demo_docx] demo_world).
  rewrite (surjective_pairing (main _ _ _)) at 1.
  apply (f_equal2 pair); reflexivity.
Defined.

(** ** Runs on concrete inputs *)

Example strip_example :
  strip ([9; 10; 160]%N ++ lit "Ada  Lovelace" ++ [32; 8232; 10]%N) = lit "Ada  Lovelace".
Proof. reflexivity. Qed.

Example extract_text_from_pdf_example :
  @extract_text_from_pdf demo_libs (file_data demo_pdf)
  = Ok (lit "Ada Lovelace" ++ [10%N] ++ lit "Analyst").
Proof. reflexivity. Qed.

Example total_score_example :
  @fadd demo_libs (@fmul demo_libs (@float_half demo_libs) (b64 25))
                  (@fmul demo_libs (@float_half demo_libs) (b64 50))
  = SFdiv 53 1024 (b64 75) (b64 2).
Proof. vm_compute. reflexivity. Qed.

Example best_candidate_empty : best_candidate [] = Raise ValueError.
Proof. reflexivity. Qed.

Example best_candidate_nan :
  best_candidate [mk_candidate (lit "a") S754_nan S754_nan S754_nan;
                  mk_candidate (lit "b") float_72_50 float_72_50 float_72_50]
  = Ok (mk_candidate (lit "a") S754_nan S754_nan S754_nan).
Proof. reflexivity. Qed.

Example main_unsupported_only :
  screen (snd (@main demo_libs [demo_txt] false (mk_world ∅ [])))
  = [PageHeader; Spinner "Extracting text from the CVs...";
     Warning "No candidates found. Please check the CV content."; PageFooter].
Proof. vm_compute. reflexivity. Qed.

Example main_nothing_uploaded :
  screen (snd (@main demo_libs [] true (mk_world ∅ [])))
  = [PageHeader; Warning "No CVs uploaded to clear."; PageFooter].
Proof. vm_compute. reflexivity. Qed.

Example main_unopenable_pdf :
  fst (@main demo_libs [@mk_file demo_libs mime_pdf []] false (mk_world ∅ []))
  = Raise PdfOpenError.
Proof. vm_compute. reflexivity. Qed.

(** ** Loops that append *)

Section Loops.
Context {A B : Type}.

(** A loop over two lists in a row is the loop over the first, then the
    loop over the second on what the first left. *)
Lemma for_each_app (body : B → A → result B) (xs ys : list A) (s : B) :
  for_each body (xs ++ ys) s =
    match for_each body xs s with
    | Ok s' => for_each body ys s'
    | Raise e => Raise e
    end.
Proof.
  revert s. induction xs as [|x xs IH]; intros s; simpl; [done|].
  destruct (body s x); [apply IH|done].
Qed.

End Loops.

Section AppendLoops.
Context {A B : Type} (contribution : A → result (list B)).
Context (step : list B → A → result (list B)).
Hypothesis step_appends : ∀ acc x,
  step acc x = match contribution x with
               | Ok ys => Ok (acc ++ ys)
               | Raise e => Raise e
               end.

Lemma append_loop_acc (xs : list A) (acc : list B) :
  for_each step xs acc =
    match for_each step xs [] with
    | Ok out => Ok (acc ++ out)
    | Raise e => Raise e
    end.
Proof.
  revert acc. induction xs as [|x xs IH]; intros acc; simpl.
  - by rewrite app_nil_r.
  - rewrite !step_appends. destruct (contribution x) as [ys|e]; [|done].
    rewrite (IH (acc ++ ys)), (IH ([] ++ ys)).
    destruct (for_each step xs []); [|done]. simpl. by rewrite <- app_assoc.
Qed.

Lemma append_loop_Raise (xs : list A) (e : exn) :
  for_each step xs [] = Raise e ↔
  ∃ pre x post out,
    xs = pre ++ x :: post ∧ for_each step pre [] = Ok out ∧ contribution x = Raise e.
Proof.
  split.
  - induction xs as [|x xs IH]; simpl; [done|].
    rewrite step_appends. destruct (contribution x) as [ys|e'] eqn:Hx.
    + rewrite append_loop_acc.
      destruct (for_each step xs []) as [out|e'] eqn:Hxs; [done|].
      intros [= ->]. destruct (IH eq_refl) as (pre & x' & post & out & -> & Hpre & Hx').
      exists (x :: pre), x', post, (ys ++ out). split; [done|]. split; [|done].
      simpl. rewrite step_appends, Hx, append_loop_acc, Hpre. done.
    + intros [= ->]. by exists [], x, xs, [].
  - intros (pre & x & post & out & -> & Hpre & Hx).
    rewrite for_each_app, Hpre. simpl. by rewrite step_appends, Hx.
Qed.

End AppendLoops.

(** ** More on the scoring loop *)

Section ScoringMore.
Context `{Libs}.

Lemma rank_step_contribution (acc : list Candidate) (text : str) :
  rank_step acc text =
    match (match candidate_for text with Ok c => Ok [c] | Raise e => Raise e end) with
    | Ok ys => Ok (acc ++ ys)
    | Raise e => Raise e
    end.
Proof. rewrite rank_step_acc. by destruct (candidate_for text). Qed.

(** X1: [rank_candidates] raises exactly when the tuple of some text cannot be
    computed while the texts before it rank without an exception; the
    exception is that of this first text, and no list is returned. *)
Theorem rank_candidates_first_failure (cv_data : list str) (e : exn) :
  rank_candidates cv_data = Raise e ↔
  ∃ (pre : list str) (text : str) (post : list str) (out : list Candidate),
    cv_data = pre ++ text :: post ∧
    rank_candidates pre = Ok out ∧
    candidate_for text = Raise e.
Proof.
  unfold rank_candidates.
  rewrite (append_loop_Raise _ rank_step rank_step_contribution). split.
  - intros (pre & text & post & out & -> & Hpre & Htext).
    exists pre, text, post, out. split; [done|]. split; [done|].
    destruct (candidate_for text); congruence.
  - intros (pre & text & post & out & -> & Hpre & Htext).
    exists pre, text, post, out. split; [done|]. split; [done|].
    by rewrite Htext.
Qed.

(** X2: ranking two batches one after the other in one call gives the results
    of the first batch followed by those of the second: a text's tuple does
    not depend on the texts around it. *)
Theorem rank_candidates_app (cv_data1 cv_data2 : list str) :
  rank_candidates (cv_data1 ++ cv_data2) =
    match rank_candidates cv_data1 with
    | Ok out1 =>
        match rank_candidates cv_data2 with
        | Ok out2 => Ok (out1 ++ out2)
        | Raise e => Raise e
        end
    | Raise e => Raise e
    end.
Proof.
  unfold rank_candidates. rewrite for_each_app.
  destruct (for_each rank_step cv_data1 []) as [out1|e]; [|done].
  apply (append_loop_acc _ rank_step rank_step_contribution).
Qed.

End ScoringMore.

Lemma rank_candidates_first_failure_witness :
  @rank_candidates strict_libs [lit "Ada"; []; lit "Grace"] = Raise ClassifierError.
Proof.
  apply (proj2 (@rank_candidates_first_failure strict_libs
                  [lit "Ada"; []; lit "Grace"] ClassifierError)).
  eexists [lit "Ada"], [], [lit "Grace"], _.
  split; [reflexivity|]. split; [vm_compute; reflexivity|reflexivity].
Defined.

(** ** The weighting of the two scores *)

Section Weighting.
Context `{Libs}.

Lemma SFadd_comm (prec emax : Z) (x y : float) :
  SFadd prec emax x y = SFadd prec emax y x.
Proof.
  destruct x as [[]|[]| |sx mx ex], y as [[]|[]| |sy my ey]; simpl; try done.
  by rewrite (Z.min_comm ey ex), Z.add_comm.
Qed.

Lemma rank_candidates_elem (cv_data : list str) (out : list Candidate) (c : Candidate) :
  rank_candidates cv_data = Ok out → c ∈ out →
  ∃ text, text ∈ cv_data ∧ candidate_for text = Ok c.
Proof.
  intros Hout%rank_candidates_Ok Hc.
  apply list_elem_of_lookup in Hc as [i Hi].
  destruct (Forall2_lookup_r _ _ _ _ _ Hout Hi) as (text & Htext & Hfor).
  exists text. split; [|done]. apply list_elem_of_lookup. by exists i.
Qed.

(** X5: the two scores weigh the same: two results, of one call or of two,
    whose skills and experience scores are exchanged have the same total
    score. *)
Theorem total_score_symmetric (cv_data1 cv_data2 : list str)
    (out1 out2 : list Candidate) (c1 c2 : Candidate) :
  rank_candidates cv_data1 = Ok out1 → rank_candidates cv_data2 = Ok out2 →
  c1 ∈ out1 → c2 ∈ out2 →
  skills_score c1 = experience_score c2 →
  experience_score c1 = skills_score c2 →
  total_score c1 = total_score c2.
Proof.
  intros Hout1 Hout2 Hc1 Hc2.
  destruct (rank_candidates_elem _ _ _ Hout1 Hc1) as (t1 & _ & Ht1).
  destruct (rank_candidates_elem _ _ _ Hout2 Hc2) as (t2 & _ & Ht2).
  apply candidate_for_Ok in Ht1 as (? & ? & p0 & p1 & _ & _ & _ & _ & ->).
  apply candidate_for_Ok in Ht2 as (? & ? & q0 & q1 & _ & _ & _ & _ & ->).
  simpl. intros -> ->. apply SFadd_comm.
Qed.

End Weighting.

Lemma total_score_symmetric_witness :
  ∃ c1 c2 : Candidate,
    @rank_candidates swap_libs [lit "a"; lit "b"] = Ok [c1; c2] ∧
    skills_score c1 = experience_score c2 ∧
    experience_score c1 = skills_score c2 ∧
    skills_score c1 ≠ skills_score c2 ∧
    total_score c1 = total_score c2.
Proof.
  eexists _, _. split; [vm_compute; reflexivity|].
  split; [reflexivity|]. split; [reflexivity|]. split; [discriminate|].
  eapply (@total_score_symmetric swap_libs [lit "a"; lit "b"] [lit "a"; lit "b"]).
  - vm_compute. reflexivity.
  - vm_compute. reflexivity.
  - apply list_elem_of_here.
  - apply list_elem_of_further, list_elem_of_here.
  - reflexivity.
  - reflexivity.
Defined.

(** ** More on the upload loop and the extraction *)

Section UploadMore.
Context `{Libs}.

Lemma upload_step_contribution (cvs : list str) (f : UploadedFile) :
  upload_step cvs f =
    match (if accepted f
           then match extract_for f with Ok text => Ok [text] | Raise e => Raise e end
           else Ok []) with
    | Ok texts => Ok (cvs ++ texts)
    | Raise e => Raise e
    end.
Proof.
  unfold upload_step, accepted, extract_for.
  destruct (bool_decide (file_type f = mime_pdf)); simpl.
  - by destruct (extract_text_from_pdf (file_data f)).
  - destruct (bool_decide (file_type f = mime_docx)); simpl.
    + by destruct (extract_text_from_word (file_data f)).
    + by rewrite app_nil_r.
Qed.

Lemma upload_loop_Ok (uploaded_files : list UploadedFile) (cvs out : list str) :
  for_each upload_step uploaded_files cvs = Ok out ↔
  ∃ texts, out = cvs ++ texts ∧
    Forall2 (λ f text, extract_for f = Ok text) (List.filter accepted uploaded_files) texts.
Proof.
  revert cvs out. induction uploaded_files as [|f files IH]; intros cvs out; simpl.
  - split.
    + intros [= <-]. exists []. by rewrite app_nil_r.
    + intros (texts & -> & ->%Forall2_nil_inv_l). by rewrite app_nil_r.
  - rewrite upload_step_contribution. destruct (accepted f); simpl.
    + destruct (extract_for f) as [text|e] eqn:Hf.
      * rewrite IH. split.
        -- intros (texts & -> & Htexts). exists (text :: texts).
           rewrite <- app_assoc. split; [done|]. by constructor.
        -- intros (texts & -> & Htexts).
           apply Forall2_cons_inv_l in Htexts as (text' & texts' & Hf' & Htexts' & ->).
           exists texts'. rewrite <- app_assoc. split; [|done]. simpl. congruence.
      * split; [done|]. intros (texts & -> & Htexts).
        apply Forall2_cons_inv_l in Htexts as (text' & texts' & Hf' & _). congruence.
    + rewrite app_nil_r. apply IH.
Qed.

(** X6: the upload loop returns, in upload order, the text of every file of an
    accepted type, a PDF through [extract_text_from_pdf] and a Word
    document through [extract_text_from_word], and returns only when each
    of these extractions does. *)
Theorem collect_cvs_texts (uploaded_files : list UploadedFile) (cvs : list str) :
  collect_cvs uploaded_files = Ok cvs ↔
  Forall2 (λ f text, extract_for f = Ok text) (List.filter accepted uploaded_files) cvs.
Proof.
  unfold collect_cvs. rewrite upload_loop_Ok. simpl. split.
  - by intros (texts & -> & Htexts).
  - intros Htexts. by exists cvs.
Qed.

(** X7: the upload loop raises exactly when the extraction of some file of an
    accepted type raises while the files before it are collected without
    an exception: the first such file ends the loop for the whole batch. *)
Theorem collect_cvs_first_failure (uploaded_files : list UploadedFile) (e : exn) :
  collect_cvs uploaded_files = Raise e ↔
  ∃ (pre : list UploadedFile) (f : UploadedFile) (post : list UploadedFile)
    (cvs : list str),
    uploaded_files = pre ++ f :: post ∧
    collect_cvs pre = Ok cvs ∧
    accepted f = true ∧ extract_for f = Raise e.
Proof.
  unfold collect_cvs.
  rewrite (append_loop_Raise _ upload_step upload_step_contribution). split.
  - intros (pre & f & post & cvs & -> & Hpre & Hf).
    exists pre, f, post, cvs. split; [done|]. split; [done|].
    destruct (accepted f); [|done]. split; [done|].
    destruct (extract_for f); congruence.
  - intros (pre & f & post & cvs & -> & Hpre & Hacc & Hf).
    exists pre, f, post, cvs. split; [done|]. split; [done|].
    by rewrite Hacc, Hf.
Qed.

Lemma lstrip_blank (s : str) : Forall (λ c, isspace c = true) s → lstrip s = [].
Proof. induction 1 as [|c s Hc _ IH]; simpl; [done|]. by rewrite Hc. Qed.

Lemma strip_blank (s : str) : Forall (λ c, isspace c = true) s → strip s = [].
Proof. intros Hs. unfold strip. by rewrite lstrip_blank. Qed.

Lemma lstrip_snoc (s : str) (c : N) :
  isspace c = true →
  lstrip (s ++ [c]) = match lstrip s with [] => [] | _ :: _ => lstrip s ++ [c] end.
Proof.
  intros Hc. induction s as [|a s IH]; simpl.
  - by rewrite Hc.
  - destruct (isspace a); [done|]. done.
Qed.

Lemma rstrip_snoc (s : str) (c : N) : isspace c = true → rstrip (s ++ [c]) = rstrip s.
Proof. intros Hc. unfold rstrip. rewrite reverse_snoc. simpl. by rewrite Hc. Qed.

Lemma strip_snoc (s : str) (c : N) : isspace c = true → strip (s ++ [c]) = strip s.
Proof.
  intros Hc. unfold strip. rewrite lstrip_snoc by done.
  destruct (lstrip s) as [|a t]; [done|]. by apply rstrip_snoc.
Qed.

Lemma pages_text_join (pages : list page) :
  pages ≠ [] → pages_text pages = join_lines (extract_text <$> pages) ++ newline.
Proof.
  induction pages as [|p pages IH]; [done|]. intros _. unfold pages_text in *.
  destruct pages as [|p' pages].
  - simpl. by rewrite app_nil_r.
  - specialize (IH ltac:(done)). simpl in *. rewrite IH. by rewrite <- !app_assoc.
Qed.

(** X8: for a PDF the parser opens, the text returned is the page texts joined
    by single newlines and then stripped: the newline added after the last
    page never reaches the result. *)
Theorem extract_text_from_pdf_join (pdf_path : blob) (pages : list page) :
  pdfplumber_open pdf_path = Ok pages →
  extract_text_from_pdf pdf_path = Ok (strip (join_lines (extract_text <$> pages))).
Proof.
  intros Hopen. unfold extract_text_from_pdf. rewrite Hopen. simpl.
  rewrite pages_loop. simpl. destruct pages as [|p pages]; [done|].
  rewrite pages_text_join by done. unfold newline. by rewrite strip_snoc.
Qed.

(** X9: a PDF without pages, or whose pages hold white space only, gives the
    empty text, not an exception: it still becomes an entry of [cvs]. *)
Theorem extract_text_from_pdf_blank (pdf_path : blob) (pages : list page) :
  pdfplumber_open pdf_path = Ok pages →
  Forall (λ p, Forall (λ c, isspace c = true) (extract_text p)) pages →
  extract_text_from_pdf pdf_path = Ok [] ∧
  ∀ (cvs : list str) (f : UploadedFile),
    file_type f = mime_pdf → file_data f = pdf_path →
    upload_step cvs f = Ok (cvs ++ [[]]).
Proof.
  intros Hopen Hblank.
  assert (extract_text_from_pdf pdf_path = Ok []) as Hempty.
  { unfold extract_text_from_pdf. rewrite Hopen. simpl. rewrite pages_loop. simpl.
    rewrite strip_blank; [done|]. unfold pages_text. clear Hopen.
    induction Hblank as [|p pages Hp _ IH]; simpl; [done|].
    apply Forall_app. split; [|exact IH]. apply Forall_app. split; [exact Hp|].
    repeat constructor. }
  split; [done|]. intros cvs f Htype Hdata. unfold upload_step.
  rewrite bool_decide_eq_true_2 by done. by rewrite Hdata, Hempty.
Qed.

End UploadMore.

Lemma collect_cvs_texts_witness :
  Forall2 (λ f text, @extract_for demo_libs f = Ok text)
    (List.filter (@accepted demo_libs) [demo_pdf; demo_txt; demo_docx])
    [lit "Ada Lovelace" ++ [10%N] ++ lit "Analyst"; lit "Grace Hopper"].
Proof.
  apply (proj1 (@collect_cvs_texts demo_libs [demo_pdf; demo_txt; demo_docx] _)).
  reflexivity.
Defined.

Lemma collect_cvs_first_failure_witness :
  @collect_cvs demo_libs [demo_pdf; demo_txt; demo_broken_pdf; demo_docx]
  = Raise PdfOpenError.
Proof.
  apply (proj2 (@collect_cvs_first_failure demo_libs
                  [demo_pdf; demo_txt; demo_broken_pdf; demo_docx] PdfOpenError)).
  eexists [demo_pdf; demo_txt], demo_broken_pdf, [demo_docx], _.
  split; [reflexivity|]. split; [reflexivity|]. split; reflexivity.
Defined.

Lemma extract_text_from_pdf_join_witness :
  @extract_text_from_pdf demo_libs (file_data demo_pdf)
  = Ok (strip (join_lines [lit " Ada Lovelace"; lit "Analyst "])).
Proof.
  apply (@extract_text_from_pdf_join demo_libs (file_data demo_pdf) (file_data demo_pdf)).
  reflexivity.
Defined.

Lemma extract_text_from_pdf_blank_witness :
  @extract_text_from_pdf demo_libs (file_data demo_blank_pdf) = Ok [].
Proof.
  apply (@extract_text_from_pdf_blank demo_libs (file_data demo_blank_pdf)
           (file_data demo_blank_pdf)).
  - reflexivity.
  - repeat constructor.
Defined.

(** ** More on the best candidate *)

Section BestMore.

Lemma max_scan_app (maxitem : Candidate) (rest1 rest2 : list Candidate) :
  max_scan maxitem (rest1 ++ rest2) = max_scan (max_scan maxitem rest1) rest2.
Proof.
  revert maxitem. induction rest1 as [|item rest1 IH]; intros maxitem; simpl; [done|].
  destruct (float_gt (total_score item) (total_score maxitem)); apply IH.
Qed.

Lemma float_gt_nan_l (x : float) : float_gt S754_nan x = false.
Proof. unfold float_gt, SFltb. by destruct x as [[]|[]| |[] m e]. Qed.

Lemma float_gt_nan_r (x : float) : float_gt x S754_nan = false.
Proof. unfold float_gt, SFltb. by destruct x as [[]|[]| |[] m e]. Qed.

Lemma max_scan_nan_stays (maxitem : Candidate) (rest : list Candidate) :
  total_score maxitem = S754_nan → max_scan maxitem rest = maxitem.
Proof.
  intros Hnan. induction rest as [|item rest IH]; simpl; [done|].
  by rewrite Hnan, float_gt_nan_r.
Qed.

Lemma max_scan_nan_result (maxitem : Candidate) (rest : list Candidate) :
  total_score (max_scan maxitem rest) = S754_nan → max_scan maxitem rest = maxitem.
Proof.
  revert maxitem. induction rest as [|item rest IH]; intros maxitem; simpl; [done|].
  destruct (float_gt (total_score item) (total_score maxitem)) eqn:Hgt; [|apply IH].
  intros Hnan. rewrite (IH item Hnan) in Hnan.
  rewrite Hnan, float_gt_nan_l in Hgt. done.
Qed.

(** X10: [max] raises only on the empty list, and then [ValueError]; on any
    other list it returns one of the list's candidates, whatever their
    scores are. *)
Theorem best_candidate_member (candidates : list Candidate) :
  match best_candidate candidates with
  | Ok best => best ∈ candidates
  | Raise e => candidates = [] ∧ e = ValueError
  end.
Proof.
  destruct (best_candidate candidates) as [best|e] eqn:Hbest.
  - destruct (best_candidate_at_index _ _ Hbest) as (i & _ & Hi).
    apply list_elem_of_lookup. by exists i.
  - destruct candidates; [|done]. by injection Hbest as <-.
Qed.

(** X11: a total score that is not a number is never greater than another and
    nothing is greater than it: a first candidate with such a total is
    returned whatever follows, and a later one is never returned. *)
Theorem best_candidate_nan_only_first (first : Candidate) (rest : list Candidate)
    (best : Candidate) :
  best_candidate (first :: rest) = Ok best →
  (total_score first = S754_nan → best = first) ∧
  (total_score best = S754_nan → best = first).
Proof.
  simpl. intros [= <-]. split.
  - apply max_scan_nan_stays.
  - apply max_scan_nan_result.
Qed.

(** X12: appending one candidate changes the best candidate only when the new
    total score is greater than the best so far; on a tie the earlier
    candidate stays. *)
Theorem best_candidate_snoc (candidates : list Candidate) (c best : Candidate) :
  best_candidate candidates = Ok best →
  best_candidate (candidates ++ [c]) =
    Ok (if float_gt (total_score c) (total_score best) then c else best).
Proof.
  destruct candidates as [|item rest]; [done|]. simpl. intros [= <-].
  rewrite max_scan_app. simpl.
  by destruct (float_gt (total_score c) (total_score (max_scan item rest))).
Qed.

End BestMore.

Lemma best_candidate_nan_only_first_witness :
  ∃ best : Candidate,
    best_candidate (mk_candidate (lit "a") S754_nan S754_nan S754_nan :: demo_candidates)
      = Ok best ∧
    best = mk_candidate (lit "a") S754_nan S754_nan S754_nan.
Proof.
  eexists. split; [reflexivity|].
  apply (proj1 (best_candidate_nan_only_first
                  (mk_candidate (lit "a") S754_nan S754_nan S754_nan)
                  demo_candidates _ eq_refl)).
  reflexivity.
Defined.

Lemma best_candidate_snoc_witness :
  best_candidate (demo_candidates ++
                  [mk_candidate (lit "late") float_88_10 float_88_10 float_88_10])
  = Ok (mk_candidate (lit "second") float_88_10 float_88_10 float_88_10).
Proof.
  apply (best_candidate_snoc demo_candidates
           (mk_candidate (lit "late") float_88_10 float_88_10 float_88_10)
           (mk_candidate (lit "second") float_88_10 float_88_10 float_88_10)).
  reflexivity.
Defined.

(** ** More on the page *)

Section PageMore.
Context `{Libs}.
Local Open Scope script_scope.

Lemma show_candidate_run (index : nat) (c : Candidate) (w : world) :
  show_candidate (index, c) w =
    (Ok (), mk_world (session_state w) (screen w ++ candidate_card index c)).
Proof.
  destruct c. unfold show_candidate, script_bind, st_emit. simpl.
  by rewrite <- !app_assoc.
Qed.

Lemma script_for_cards (entries : list (nat * Candidate)) (w : world) :
  script_for show_candidate entries w =
    (Ok (), mk_world (session_state w)
              (screen w ++ concat ((λ e, candidate_card e.1 e.2) <$> entries))).
Proof.
  revert w. induction entries as [|[index c] entries IH]; intros w.
  - simpl. unfold script_ret. rewrite app_nil_r. by destruct w.
  - change (script_for show_candidate ((index, c) :: entries))
      with (script_bind (show_candidate (index, c))
              (λ _, script_for show_candidate entries)).
    unfold script_bind. rewrite show_candidate_run, IH. simpl.
    by rewrite <- !app_assoc.
Qed.

(** What [show_results] draws for a list that is not empty. *)
Lemma show_results_run (candidates : list Candidate) (w : world) :
  candidates ≠ [] →
  ∃ best, best_candidate candidates = Ok best ∧
    show_results candidates w =
      (Ok (), mk_world (session_state w)
         (screen w ++
          [Subheader "Candidates Analysis"] ++
          concat ((λ e, candidate_card e.1 e.2) <$> enumerate candidates) ++
          [Subheader "Comparison of Skills and Experience Scores";
           Pyplot {|
             labels := (λ i, [Lit "CV "; Int (i + 1)]) <$> seq 0 (length candidates);
             skills_scores := skills_score <$> candidates;
             experience_scores := experience_score <$> candidates |}] ++
          best_card best)).
Proof.
  intros Hne.
  assert (∃ best, best_candidate candidates = Ok best) as [best Hbest]
    by (destruct candidates; [done|by eexists]).
  exists best. split; [done|].
  unfold show_results. rewrite bool_decide_eq_true_2 by done.
  lazy beta iota delta [script_bind st_emit session_state screen].
  rewrite script_for_cards.
  lazy beta iota delta [script_bind st_emit lift session_state screen].
  rewrite Hbest. destruct best as [bcv bt bs be].
  lazy beta iota delta [script_bind st_emit session_state screen best_card
                        cv total_score skills_score experience_score].
  by rewrite <- !app_assoc.
Qed.

Lemma enumerate_lookup {A : Type} (l : list A) (i : nat) (x : A) :
  l !! i = Some x → enumerate l !! i = Some (i, x).
Proof.
  intros Hi. unfold enumerate. apply lookup_zip_Some. split; [|done].
  apply lookup_seq. split; [done|]. by eapply lookup_lt_Some.
Qed.

Lemma enumerate_length {A : Type} (l : list A) : length (enumerate l) = length l.
Proof. unfold enumerate. rewrite length_zip, length_seq. apply Nat.min_id. Qed.

Lemma cards_length (entries : list (nat * Candidate)) :
  length (concat ((λ e, candidate_card e.1 e.2) <$> entries)) = (4 * length entries)%nat.
Proof.
  induction entries as [|e entries IH]; [done|].
  change (concat ((λ e, candidate_card e.1 e.2) <$> e :: entries))
    with (candidate_card e.1 e.2 ++ concat ((λ e, candidate_card e.1 e.2) <$> entries)).
  rewrite length_app, IH. simpl. lia.
Qed.

Lemma cards_lookup (entries : list (nat * Candidate)) (i k : nat)
    (e : nat * Candidate) (line : ui) :
  entries !! i = Some e → candidate_card e.1 e.2 !! k = Some line →
  concat ((λ e, candidate_card e.1 e.2) <$> entries) !! (4 * i + k)%nat = Some line.
Proof.
  revert i. induction entries as [|e0 entries IH]; intros i Hi Hk; [done|].
  destruct i as [|i]; simpl in Hi.
  - injection Hi as ->. by apply (lookup_app_l_Some (candidate_card e.1 e.2)).
  - change (concat ((λ e, candidate_card e.1 e.2) <$> e0 :: entries))
      with (candidate_card e0.1 e0.2 ++
            concat ((λ e, candidate_card e.1 e.2) <$> entries)).
    rewrite lookup_app_r by (simpl; lia).
    replace (4 * S i + k - length (candidate_card e0.1 e0.2))%nat
      with (4 * i + k)%nat by (simpl; lia).
    by apply IH.
Qed.

Lemma show_results_drawn (candidates : list Candidate) (w : world) :
  ∃ drawn : list ui,
    show_results candidates w =
      (Ok (), mk_world (session_state w) (screen w ++ drawn)).
Proof.
  destruct candidates as [|item rest].
  - by eexists [_].
  - destruct (show_results_run (item :: rest) w) as (best & _ & ->); [done|].
    by eexists.
Qed.

(** X13: [show_results] never raises and never touches the session, whatever
    the list: on the empty list it draws the warning alone and does not
    call [max]; on n candidates it draws 4n + 7 items. *)
Theorem show_results_never_raises (candidates : list Candidate) (w : world) :
  ∃ drawn : list ui,
    show_results candidates w =
      (Ok (), mk_world (session_state w) (screen w ++ drawn)) ∧
    length drawn = match candidates with
                   | [] => 1%nat
                   | _ :: _ => (4 * length candidates + 7)%nat
                   end.
Proof.
  destruct candidates as [|item rest].
  - by eexists [_].
  - destruct (show_results_run (item :: rest) w) as (best & _ & ->); [done|].
    eexists. split; [done|].
    rewrite !length_app, cards_length, enumerate_length.
    change (length (best_card best)) with 4%nat.
    generalize (length (item :: rest)). intros n. simpl. lia.
Qed.

(** X14: the page numbers the candidates from 1 in list order, the same way in
    the cards and in the chart: the card of the candidate at position i
    starts at item 1 + 4i and is headed by snippet number i + 1 with the
    first 30 characters of its text, and entry i of the chart is labelled
    [CV i+1] and carries its skills and experience scores. *)
Theorem show_results_numbering (candidates : list Candidate) (w : world)
    (i : nat) (c : Candidate) :
  candidates !! i = Some c →
  ∃ (drawn : list ui) (chart : Chart),
    show_results candidates w =
      (Ok (), mk_world (session_state w) (screen w ++ drawn)) ∧
    (∀ (k : nat) (line : ui), candidate_card i c !! k = Some line →
       drawn !! (1 + 4 * i + k)%nat = Some line) ∧
    drawn !! (2 + 4 * length candidates)%nat = Some (Pyplot chart) ∧
    labels chart !! i = Some [Lit "CV "; Int (i + 1)] ∧
    skills_scores chart !! i = Some (skills_score c) ∧
    experience_scores chart !! i = Some (experience_score c).
Proof.
  intros Hi.
  destruct (show_results_run candidates w) as (best & _ & ->).
  { intros ->. done. }
  eexists _, _. split; [done|]. split; [|split; [|split; [|split]]].
  - intros k line Hk. simpl.
    apply lookup_app_l_Some. by eapply cards_lookup; [apply enumerate_lookup|].
  - simpl. rewrite lookup_app_r by (rewrite cards_length, enumerate_length; lia).
    rewrite cards_length, enumerate_length.
    replace (S _ - _)%nat with 1%nat by lia.
    done.
  - simpl. rewrite list_lookup_fmap, lookup_seq_lt; [done|]. by eapply lookup_lt_Some.
  - simpl. by rewrite list_lookup_fmap, Hi.
  - simpl. by rewrite list_lookup_fmap, Hi.
Qed.

(** X15: the page ends with the four lines of the best candidate, which is the
    one [max] returns. *)
Theorem show_results_best_last (candidates : list Candidate) (w : world) :
  candidates ≠ [] →
  ∃ (best : Candidate) (before : list ui),
    best_candidate candidates = Ok best ∧
    show_results candidates w =
      (Ok (), mk_world (session_state w) (screen w ++ before ++ best_card best)) ∧
    best ∈ candidates.
Proof.
  intros Hne. destruct (show_results_run candidates w Hne) as (best & Hbest & ->).
  exists best.
  exists ([Subheader "Candidates Analysis"] ++
          concat ((λ e, candidate_card e.1 e.2) <$> enumerate candidates) ++
          [Subheader "Comparison of Skills and Experience Scores";
           Pyplot {|
             labels := (λ i, [Lit "CV "; Int (i + 1)]) <$> seq 0 (length candidates);
             skills_scores := skills_score <$> candidates;
             experience_scores := experience_score <$> candidates |}]).
  split; [done|]. split.
  - do 2 f_equal. by rewrite <- !app_assoc.
  - destruct (best_candidate_at_index _ _ Hbest) as (j & _ & Hj).
    apply list_elem_of_lookup. by exists j.
Qed.

(** *** The steps of one run *)

Lemma init_run (w : world) :
  (b <~ ss_contains "uploaded_files" ;;
   when negb b then ss_set "uploaded_files" VNone) w =
    (Ok (), mk_world (init_session (session_state w)) (screen w)).
Proof.
  unfold script_bind, ss_contains, ss_set, script_ret, init_session. simpl.
  destruct (bool_decide (is_Some (session_state w !! "uploaded_files"))); simpl;
    [by destruct w|done].
Qed.

Lemma upload_block_none (w : world) : upload_block [] w = (Ok (), w).
Proof. done. Qed.

Lemma upload_block_raise (uploaded_files : list UploadedFile) (e : exn) (w : world) :
  uploaded_files ≠ [] → analysis uploaded_files = Raise e →
  upload_block uploaded_files w =
    (Raise e, mk_world (with_uploads uploaded_files (session_state w))
                (screen w ++ [Spinner "Extracting text from the CVs..."])).
Proof.
  intros Hne Han. unfold upload_block. rewrite bool_decide_eq_true_2 by done.
  unfold analysis in Han.
  lazy beta iota delta [script_bind st_emit ss_set lift session_state screen].
  destruct (collect_cvs uploaded_files) as [cvs|e']; simpl in Han.
  - destruct (rank_candidates cvs) as [cands|e'']; [done|]. by injection Han as ->.
  - by injection Han as ->.
Qed.

Lemma upload_block_ok (uploaded_files : list UploadedFile)
    (candidates : list Candidate) (w : world) :
  uploaded_files ≠ [] → analysis uploaded_files = Ok candidates →
  upload_block uploaded_files w =
    show_results candidates
      (mk_world (with_uploads uploaded_files (session_state w))
         (screen w ++ [Spinner "Extracting text from the CVs..."])).
Proof.
  intros Hne Han. unfold upload_block. rewrite bool_decide_eq_true_2 by done.
  unfold analysis in Han.
  lazy beta iota delta [script_bind st_emit ss_set lift session_state screen].
  destruct (collect_cvs uploaded_files) as [cvs|e']; simpl in Han; [|done].
  destruct (rank_candidates cvs) as [cands|e'']; [|done]. by injection Han as ->.
Qed.

Lemma analysis_nil : analysis [] = Ok [].
Proof. done. Qed.

(** What the upload block leaves: the session with the uploads recorded
    (or untouched when there are none), and a longer page. *)
Lemma upload_block_world (uploaded_files : list UploadedFile) (w : world) :
  ∃ drawn : list ui,
    upload_block uploaded_files w =
      (match analysis uploaded_files with Ok _ => Ok () | Raise e => Raise e end,
       mk_world (if bool_decide (uploaded_files ≠ [])
                 then with_uploads uploaded_files (session_state w)
                 else session_state w)
                (screen w ++ drawn)).
Proof.
  destruct uploaded_files as [|f files].
  - exists []. rewrite upload_block_none, app_nil_r. by destruct w.
  - rewrite bool_decide_eq_true_2 by done.
    destruct (analysis (f :: files)) as [cands|e] eqn:Han.
    + rewrite (upload_block_ok (f :: files) cands w ltac:(done) Han).
      destruct (show_results_drawn cands
                  (mk_world (with_uploads (f :: files) (session_state w))
                     (screen w ++ [Spinner "Extracting text from the CVs..."])))
        as (drawn & ->).
      eexists. simpl. by rewrite <- app_assoc.
    + rewrite (upload_block_raise (f :: files) e w ltac:(done) Han). by eexists.
Qed.

Lemma clear_block_cases (w : world) :
  (session_empty w ∧
   clear_block true w =
     (Ok (), mk_world (session_state w)
               (screen w ++ [Warning "No CVs uploaded to clear."]))) ∨
  (¬ session_empty w ∧
   clear_block true w =
     (Ok (), mk_world (reset_session (session_state w))
               (screen w ++ [Success "CVs cleared successfully!"]))).
Proof.
  unfold clear_block, session_empty.
  lazy beta iota delta [script_bind ss_get].
  destruct (truthy (default VNone (session_state w !! "uploaded_files")) ||
            truthy (default VNone (session_state w !! "candidates"))) eqn:Hany.
  - right. split.
    + intros [Hu Hc]. rewrite Hu, Hc in Hany. done.
    + unfold script_bind. by rewrite reset_state_run.
  - left. by apply orb_false_elim in Hany.
Qed.

Lemma main_steps (uploaded_files : list UploadedFile) (clear : bool) (w : world) :
  main uploaded_files clear w =
    match upload_block uploaded_files
            (mk_world (init_session (session_state w)) (screen w ++ [PageHeader])) with
    | (Ok _, w2) =>
        match clear_block clear w2 with
        | (Ok _, w3) => (Ok (), mk_world (session_state w3) (screen w3 ++ [PageFooter]))
        | (Raise e, w3) => (Raise e, w3)
        end
    | (Raise e, w2) => (Raise e, w2)
    end.
Proof.
  unfold main.
  lazy beta iota delta [script_bind st_emit ss_contains ss_set script_ret init_session
                        session_state screen negb].
  destruct (bool_decide (is_Some (_ !! "uploaded_files"))); lazy beta iota.
  all: destruct (upload_block uploaded_files _) as [[[]|e] w2]; [|done].
  all: destruct (clear_block clear w2) as [[[]|e] w3]; done.
Qed.

(** *** The session across a run *)

Lemma init_session_uploads (ss : gmap string value) :
  is_Some (init_session ss !! "uploaded_files").
Proof.
  unfold init_session. case_bool_decide; [done|]. by simplify_map_eq.
Qed.

Lemma init_session_other (ss : gmap string value) (k : string) :
  k ≠ "uploaded_files" → init_session ss !! k = ss !! k.
Proof. intros Hk. unfold init_session. case_bool_decide; by simplify_map_eq. Qed.

Lemma init_session_default (ss : gmap string value) (k : string) :
  default VNone (init_session ss !! k) = default VNone (ss !! k).
Proof.
  unfold init_session. case_bool_decide as Hin; [done|].
  destruct (decide (k = "uploaded_files")) as [->|Hk]; simplify_map_eq; [|done].
  destruct (ss !! "uploaded_files") eqn:Hu; [|done]. destruct Hin. by eexists.
Qed.

Lemma with_uploads_init (uploaded_files : list UploadedFile) (ss : gmap string value) :
  with_uploads uploaded_files (init_session ss) = with_uploads uploaded_files ss.
Proof.
  unfold with_uploads, init_session. case_bool_decide; [done|].
  by rewrite insert_insert_eq.
Qed.

Lemma reset_session_idem (ss : gmap string value) :
  reset_session (reset_session ss) = reset_session ss.
Proof.
  unfold reset_session. apply map_eq. intros k.
  destruct (decide (k = "candidates")) as [Hc|Hc]; [subst k; by simplify_map_eq|].
  destruct (decide (k = "uploaded_files")) as [Hu|Hu]; [subst k; by simplify_map_eq|].
  by simplify_map_eq.
Qed.

(** X16: [reset_state] changes the two keys it names and no other, and a second
    reset changes nothing more. *)
Theorem reset_state_other_keys (w : world) :
  (∀ k : string, k ≠ "uploaded_files" → k ≠ "candidates" →
     session_state (reset_state w).2 !! k = session_state w !! k) ∧
  (reset_state ;;; reset_state) w = reset_state w.
Proof.
  split.
  - intros k Hu Hc. rewrite reset_state_run. simpl. by simplify_map_eq.
  - unfold script_bind. rewrite !reset_state_run. simpl.
    do 2 f_equal. apply reset_session_idem.
Qed.

(** X17: the button answers by what the session holds: with no document and no
    candidate in it, it warns and leaves the session alone; otherwise it
    resets the session and reports success. Not pressed, it does nothing. *)
Theorem clear_block_message (w : world) :
  (session_empty w →
   clear_block true w =
     (Ok (), mk_world (session_state w)
               (screen w ++ [Warning "No CVs uploaded to clear."]))) ∧
  (¬ session_empty w →
   clear_block true w =
     (Ok (), mk_world (reset_session (session_state w))
               (screen w ++ [Success "CVs cleared successfully!"]))) ∧
  clear_block false w = (Ok (), w).
Proof.
  split; [|split; [|done]].
  - intros Hempty. by destruct (clear_block_cases w) as [[_ ->]|[Hne _]].
  - intros Hne. by destruct (clear_block_cases w) as [[Hempty _]|[_ ->]].
Qed.

(** X18: whatever a run does, and whether or not it raises, afterwards the key
    [uploaded_files] is present, the entry [candidates] is what it was or
    the empty list (the computed candidates are never stored in the
    session), every other key is untouched, and the page has only grown. *)
Theorem main_session_invariant (uploaded_files : list UploadedFile) (clear : bool)
    (w : world) :
  is_Some (session_state (main uploaded_files clear w).2 !! "uploaded_files") ∧
  (session_state (main uploaded_files clear w).2 !! "candidates"
     = session_state w !! "candidates" ∨
   session_state (main uploaded_files clear w).2 !! "candidates" = Some (VList [])) ∧
  (∀ k : string, k ≠ "uploaded_files" → k ≠ "candidates" →
     session_state (main uploaded_files clear w).2 !! k = session_state w !! k) ∧
  (∃ drawn : list ui,
     screen (main uploaded_files clear w).2 = screen w ++ PageHeader :: drawn).
Proof.
  rewrite main_steps.
  destruct (upload_block_world uploaded_files
              (mk_world (init_session (session_state w)) (screen w ++ [PageHeader])))
    as [drawn ->].
  simpl session_state. simpl screen.
  remember (if bool_decide (uploaded_files ≠ [])
            then with_uploads uploaded_files (init_session (session_state w))
            else init_session (session_state w)) as ss2 eqn:Hss2.
  assert (is_Some (ss2 !! "uploaded_files")) as Hupl.
  { subst ss2. case_bool_decide; [|apply init_session_uploads].
    unfold with_uploads. by simplify_map_eq. }
  assert (∀ k, k ≠ "uploaded_files" → ss2 !! k = session_state w !! k) as Hother.
  { intros k Hk. subst ss2. case_bool_decide.
    - unfold with_uploads. simplify_map_eq. by apply init_session_other.
    - by apply init_session_other. }
  clear Hss2.
  destruct (analysis uploaded_files) as [cands|e]; lazy beta iota.
  - destruct clear.
    + destruct (clear_block_cases (mk_world ss2 ((screen w ++ [PageHeader]) ++ drawn)))
        as [[_ ->]|[_ ->]]; simpl.
      * split; [done|]. split; [left; by apply Hother|]. split; [by auto|].
        eexists. by rewrite <- !app_assoc.
      * unfold reset_session. split; [by simplify_map_eq|].
        split; [right; by simplify_map_eq|]. split.
        -- intros k Hu Hc. simplify_map_eq. by apply Hother.
        -- eexists. by rewrite <- !app_assoc.
    + unfold clear_block, script_ret. simpl.
      split; [done|]. split; [left; by apply Hother|]. split; [by auto|].
      eexists. by rewrite <- !app_assoc.
  - simpl. split; [done|]. split; [left; by apply Hother|]. split; [by auto|].
    eexists. by rewrite <- !app_assoc.
Qed.

(** X19: a run raises exactly when the extraction or the classification does.
    It then stops at the spinner: nothing of the results is drawn, the
    button is not handled even if pressed, no footer is drawn, and the
    session keeps the uploaded files. *)
Theorem main_stops_on_exception (uploaded_files : list UploadedFile) (clear : bool)
    (w : world) :
  (∀ e : exn, (main uploaded_files clear w).1 = Raise e ↔
              analysis uploaded_files = Raise e) ∧
  (∀ e : exn, analysis uploaded_files = Raise e →
     main uploaded_files clear w =
       (Raise e, mk_world (with_uploads uploaded_files (session_state w))
                   (screen w ++ [PageHeader; Spinner "Extracting text from the CVs..."]))).
Proof.
  split.
  - intros e. rewrite main_steps.
    destruct (upload_block_world uploaded_files
                (mk_world (init_session (session_state w)) (screen w ++ [PageHeader])))
      as [drawn ->].
    destruct (analysis uploaded_files) as [cands|e']; lazy beta iota.
    2: { simpl. split; intros [= ->]; done. }
    match goal with
    | |- context [clear_block clear ?w2] =>
        destruct (clear_block_run clear w2) as (w3 & drawn3 & -> & _)
    end.
    simpl. split; intros; discriminate.
  - intros e Han. rewrite main_steps.
    assert (uploaded_files ≠ []) as Hne by (intros ->; done).
    rewrite (upload_block_raise uploaded_files e _ Hne Han). simpl.
    by rewrite with_uploads_init, <- app_assoc.
Qed.

(** X20: with nothing uploaded a run draws the header and the footer only, and
    sets [uploaded_files] to [None] if the key was missing; with the button
    pressed on a session that holds nothing it adds the warning. *)
Theorem main_no_upload (w : world) :
  main [] false w =
    (Ok (), mk_world (init_session (session_state w))
              (screen w ++ [PageHeader; PageFooter])) ∧
  (session_empty w →
   main [] true w =
     (Ok (), mk_world (init_session (session_state w))
               (screen w ++ [PageHeader; Warning "No CVs uploaded to clear.";
                             PageFooter]))).
Proof.
  split.
  - rewrite main_steps, upload_block_none. simpl. by rewrite <- app_assoc.
  - intros [Hu Hc]. rewrite main_steps, upload_block_none.
    destruct (clear_block_cases
                (mk_world (init_session (session_state w)) (screen w ++ [PageHeader])))
      as [[_ ->]|[Hne _]].
    + simpl. by rewrite <- !app_assoc.
    + destruct Hne. unfold session_empty. simpl. by rewrite !init_session_default.
Qed.

(** X21: a run without the button records every uploaded file in the session,
    those of an unsupported type too, whether or not the run raises, and
    changes nothing else in it. *)
Theorem main_records_every_upload (uploaded_files : list UploadedFile) (w : world) :
  uploaded_files ≠ [] →
  session_state (main uploaded_files false w).2
    = with_uploads uploaded_files (session_state w).
Proof.
  intros Hne. rewrite main_steps.
  destruct (upload_block_world uploaded_files
              (mk_world (init_session (session_state w)) (screen w ++ [PageHeader])))
    as [drawn ->].
  rewrite bool_decide_eq_true_2 by done. simpl session_state.
  rewrite with_uploads_init. by destruct (analysis uploaded_files).
Qed.

(** X22: clearing does not outlast the run: after a run in which the button
    cleared the session, the next run with the same files still in the
    uploader succeeds as well and puts them back into the session. *)
Theorem clear_undone_by_rerun (uploaded_files : list UploadedFile) (w w1 : world) :
  uploaded_files ≠ [] →
  main uploaded_files true w = (Ok (), w1) →
  session_empty w1 ∧
  ∃ w2 : world,
    main uploaded_files false w1 = (Ok (), w2) ∧
    session_state w2 !! "uploaded_files" = Some (VList (IFile <$> uploaded_files)) ∧
    ¬ session_empty w2.
Proof.
  intros Hne Hrun.
  assert (∃ cands, analysis uploaded_files = Ok cands) as [cands Han].
  { destruct (analysis uploaded_files) as [cands|e] eqn:Han; [by eexists|].
    rewrite main_steps, (upload_block_raise uploaded_files e _ Hne Han) in Hrun. done. }
  split.
  - rewrite main_steps in Hrun.
    destruct (upload_block_world uploaded_files
                (mk_world (init_session (session_state w)) (screen w ++ [PageHeader])))
      as [drawn Hup]. rewrite Hup, Han in Hrun.
    match type of Hrun with
    | context [clear_block true ?w2] =>
        destruct (clear_block_run true w2) as (w3 & drawn3 & Hclear & _ & Hempty);
        rewrite Hclear in Hrun
    end.
    injection Hrun as <-. exact (Hempty eq_refl).
  - rewrite main_steps.
    destruct (upload_block_world uploaded_files
                (mk_world (init_session (session_state w1)) (screen w1 ++ [PageHeader])))
      as [drawn ->].
    rewrite Han, bool_decide_eq_true_2 by done. simpl.
    eexists. split; [done|]. simpl. unfold with_uploads. split; [by simplify_map_eq|].
    intros [Hu _]. simplify_map_eq. by destruct uploaded_files.
Qed.

End PageMore.

Lemma show_results_numbering_witness :
  ∃ (drawn : list ui) (chart : Chart),
    @show_results demo_libs demo_candidates demo_world =
      (Ok (), mk_world (session_state demo_world) (screen demo_world ++ drawn)) ∧
    drawn !! 5%nat =
      Some (Markdown [Lit "**CV Snippet "; Int 2;
                      Lit ":** <span style='color: #d62728;'>";
                      Text (lit "second"); Lit "...</span>"]) ∧
    labels chart !! 1%nat = Some [Lit "CV "; Int 2].
Proof.
  destruct (@show_results_numbering demo_libs demo_candidates demo_world 1
              (mk_candidate (lit "second") float_88_10 float_88_10 float_88_10) eq_refl)
    as (drawn & chart & Hrun & Hcard & _ & Hlabel & _).
  exists drawn, chart. split; [exact Hrun|]. split; [|exact Hlabel].
  apply (Hcard 0%nat). reflexivity.
Defined.

Lemma show_results_best_last_witness :
  ∃ (best : Candidate) (before : list ui),
    best_candidate demo_candidates = Ok best ∧
    @show_results demo_libs demo_candidates demo_world =
      (Ok (), mk_world (session_state demo_world)
                (screen demo_world ++ before ++ best_card best)) ∧
    best ∈ demo_candidates.
Proof.
  apply (@show_results_best_last demo_libs demo_candidates demo_world). discriminate.
Defined.

Lemma reset_state_other_keys_witness :
  session_state (@reset_state demo_libs demo_other_world).2 !! "theme"
  = session_state demo_other_world !! "theme".
Proof.
  apply (proj1 (@reset_state_other_keys demo_libs demo_other_world)); discriminate.
Defined.

Lemma clear_block_message_witness :
  @clear_block demo_libs true demo_fresh =
    (Ok (), mk_world (session_state demo_fresh)
              (screen demo_fresh ++ [Warning "No CVs uploaded to clear."])) ∧
  @clear_block demo_libs true demo_world =
    (Ok (), mk_world (reset_session (session_state demo_world))
              (screen demo_world ++ [Success "CVs cleared successfully!"])).
Proof.
  split.
  - apply (proj1 (@clear_block_message demo_libs demo_fresh)). split; reflexivity.
  - apply (proj1 (proj2 (@clear_block_message demo_libs demo_world))).
    intros [Hu _]. vm_compute in Hu. discriminate.
Defined.

Lemma main_session_invariant_witness :
  session_state (@main demo_libs [demo_pdf; demo_txt] true demo_other_world).2 !! "theme"
  = session_state demo_other_world !! "theme".
Proof.
  apply (proj1 (proj2 (proj2
    (@main_session_invariant demo_libs [demo_pdf; demo_txt] true demo_other_world))));
    discriminate.
Defined.

Lemma main_stops_on_exception_witness :
  @main demo_libs [demo_pdf; demo_broken_pdf] true demo_fresh =
    (Raise PdfOpenError,
     mk_world (with_uploads [demo_pdf; demo_broken_pdf] (session_state demo_fresh))
       (screen demo_fresh ++ [PageHeader; Spinner "Extracting text from the CVs..."])).
Proof.
  apply (proj2 (@main_stops_on_exception demo_libs [demo_pdf; demo_broken_pdf] true
                  demo_fresh)).
  reflexivity.
Defined.

Lemma main_no_upload_witness :
  @main demo_libs [] true demo_fresh =
    (Ok (), mk_world (init_session (session_state demo_fresh))
              (screen demo_fresh ++ [PageHeader; Warning "No CVs uploaded to clear.";
                                     PageFooter])).
Proof.
  apply (proj2 (@main_no_upload demo_libs demo_fresh)). split; reflexivity.
Defined.

Lemma main_records_every_upload_witness :
  session_state (@main demo_libs [demo_pdf; demo_txt] false demo_fresh).2
  = with_uploads [demo_pdf; demo_txt] (session_state demo_fresh).
Proof.
  apply (@main_records_every_upload demo_libs [demo_pdf; demo_txt] demo_fresh).
  discriminate.
Defined.

Lemma clear_undone_by_rerun_witness :
  @session_empty demo_libs (@main demo_libs [demo_pdf; demo_txt] true demo_world).2 ∧
  ∃ w2 : @world demo_libs,
    @main demo_libs [demo_pdf; demo_txt] false
      (@main demo_libs [demo_pdf; demo_txt] true demo_world).2 = (Ok (), w2) ∧
    session_state w2 !! "uploaded_files" = Some (VList (IFile <$> [demo_pdf; demo_txt])) ∧
    ¬ session_empty w2.
Proof.
  apply (@clear_undone_by_rerun demo_libs [demo_pdf; demo_txt] demo_world).
  - discriminate.
  - rewrite (surjective_pairing (main _ _ _)) at 1.
    apply (f_equal2 pair); reflexivity.
Defined.

(** ** The classifier's answer *)

Section ClassifierAnswer.
Context `{Libs}.

(** X3: the loop body raises exactly when the classifier raises, with the
    classifier's exception, or when its answer has no row 0 or a row 0 of
    fewer than two entries, with [IndexError]; the tuples collected so far
    play no part. *)
Theorem rank_step_exceptions (all_candidates : list Candidate) (text : str) (e : exn) :
  rank_step all_candidates text = Raise e ↔
  analyze_cv_text text = Raise e ∨
  (e = IndexError ∧
   ∃ cv_scores, analyze_cv_text text = Ok cv_scores ∧
     ∀ row, cv_scores !! 0%nat = Some row → (length row < 2)%nat).
Proof.
  unfold rank_step. destruct (analyze_cv_text text) as [cv_scores|e']; simpl.
  2: { split; [intros [= ->]; by left|]. by intros [[= ->]|(_ & ? & [=] & _)]. }
  unfold getitem. destruct (cv_scores !! 0%nat) as [row|] eqn:Hrow; simpl.
  - destruct row as [|p0 [|p1 row]]; simpl.
    + split.
      * intros [= <-]. right. split; [done|]. exists cv_scores. split; [done|].
        intros row' Hrow'. rewrite Hrow in Hrow'. injection Hrow' as <-. simpl. lia.
      * intros [[=]|(-> & _)]. done.
    + split.
      * intros [= <-]. right. split; [done|]. exists cv_scores. split; [done|].
        intros row' Hrow'. rewrite Hrow in Hrow'. injection Hrow' as <-. simpl. lia.
      * intros [[=]|(-> & _)]. done.
    + split; [done|]. intros [[=]|(_ & ? & [= <-] & Hshort)].
      specialize (Hshort _ Hrow). simpl in Hshort. lia.
  - split.
    + intros [= <-]. right. split; [done|]. exists cv_scores. split; [done|].
      intros row' Hrow'. congruence.
    + intros [[=]|(-> & _)]. done.
Qed.


End ClassifierAnswer.

Lemma rank_step_exceptions_witness :
  @rank_step strict_libs [] [] = Raise ClassifierError ∧
  @rank_step short_libs [] (lit "Ada") = Raise IndexError.
Proof.
  split.
  - apply (proj2 (@rank_step_exceptions strict_libs [] [] ClassifierError)).
    left. reflexivity.
  - apply (proj2 (@rank_step_exceptions short_libs [] (lit "Ada") IndexError)).
    right. split; [reflexivity|]. eexists. split; [reflexivity|].
    intros row [= <-]. simpl. lia.
Defined.


(** ** Rounding to nearest stays below a bound *)

Section Rounding.
Variables prec emax : Z.
Hypothesis prec_pos : 0 < prec.















Hypothesis emin_neg : emin prec emax ≤ 0.











End Rounding.

(** ** The scores of a ScoreVector lie in [0,100] *)

Section ScoreBounds.
Context `{Libs}.



End ScoreBounds.

